(** * gtm-storage Go client: request construction and response interpretation

    A shallow embedding of [client] (the package that follows the example
    program in [examples/main.go]) together with the facts its
    specification states about it.

    Go strings are byte strings, so they are [string] here (a list of
    8-bit [ascii]); [int] and [int64] are [Z]; a [(T, error)] return is a
    [result T]; an [http.Header] is a finite map from canonical keys to the
    list of values; the network is an explicit state threaded through a
    small state monad that also records every HTTP exchange. *)

From Stdlib Require Import ZArith NArith Ascii String List Bool Lia.
From Stdlib Require Import Numbers.DecimalString.
From Stdlib Require Numbers.DecimalZ Numbers.DecimalPos.
From stdpp Require Import base option list strings gmap.

Local Open Scope Z_scope.

(* ===================================================================== *)
(** * Go values shared by every package *)
(* ===================================================================== *)

(** A Go [error]: [errors.New]/[fmt.Errorf] without [%w] give an
    [errorString]; [fmt.Errorf] with a [%w] verb keeps the wrapped error. *)
Inductive error : Type :=
| errorString (msg : string)
| wrapError (msg : string) (cause : error).

(** [err.Error()] *)
Fixpoint Error (e : error) : string :=
  match e with
  | errorString msg => msg
  | wrapError msg cause => msg +:+ Error cause
  end.

(** A Go two-valued return [(T, error)] of which exactly one is meaningful. *)
Inductive result (A : Type) : Type :=
| Ok (a : A)
| Err (e : error).
Arguments Ok {A} a.
Arguments Err {A} e.

(** The [%d] verb of [fmt] on an integer. *)
Definition itoa (n : Z) : string := NilZero.string_of_int (Z.to_int n).

(* ===================================================================== *)
(** * Package [strings] *)
(* ===================================================================== *)

Module strings.

(** Byte membership in a cutset.  The source only passes ASCII cutsets
    (["/"] and the double quote), for which Go works byte by byte. *)
Fixpoint inCutset (c : ascii) (cutset : string) : bool :=
  match cutset with
  | EmptyString => false
  | String d rest => Ascii.eqb c d || inCutset c rest
  end.

(** [strings.TrimRight(s, cutset)] *)
Fixpoint TrimRight (s cutset : string) : string :=
  match s with
  | EmptyString => EmptyString
  | String c rest =>
      match TrimRight rest cutset with
      | EmptyString => if inCutset c cutset then EmptyString else String c EmptyString
      | String _ _ as kept => String c kept
      end
  end.

(** [strings.TrimLeft(s, cutset)] *)
Fixpoint TrimLeft (s cutset : string) : string :=
  match s with
  | EmptyString => EmptyString
  | String c rest => if inCutset c cutset then TrimLeft rest cutset else s
  end.

(** [strings.Trim(s, cutset)] *)
Definition Trim (s cutset : string) : string :=
  TrimRight (TrimLeft s cutset) cutset.

(** [strings.HasPrefix(s, prefix)] *)
Fixpoint HasPrefix (s pre : string) {struct pre} : bool :=
  match pre, s with
  | EmptyString, _ => true
  | String _ _, EmptyString => false
  | String p pre', String c s' => Ascii.eqb c p && HasPrefix s' pre'
  end.

(** [strings.Contains(s, substr)] *)
Fixpoint Contains (s substr : string) : bool :=
  HasPrefix s substr ||
  match s with
  | EmptyString => false
  | String _ rest => Contains rest substr
  end.

(** [strings.Split(s, sep)] for a non-empty [sep]: cut at every
    non-overlapping occurrence of [sep], scanning from the left.  [skip]
    counts the bytes of a separator that are still to be passed over. *)
Fixpoint splitFrom (sep : string) (skip : nat) (s : string) : list string :=
  match s with
  | EmptyString => [EmptyString]
  | String c rest =>
      match skip with
      | S k => splitFrom sep k rest
      | O =>
          if HasPrefix s sep
          then EmptyString :: splitFrom sep (String.length sep - 1) rest
          else match splitFrom sep O rest with
               | cur :: more => String c cur :: more
               | [] => [String c EmptyString]
               end
      end
  end.

(** With an empty separator Go explodes the string into its UTF-8
    sequences; that case is never reached from the client and is given
    per byte here. *)
Fixpoint explode (s : string) : list string :=
  match s with
  | EmptyString => []
  | String c rest => String c EmptyString :: explode rest
  end.

Definition Split (s sep : string) : list string :=
  match sep with
  | EmptyString => explode s
  | String _ _ => splitFrom sep O s
  end.

(** Width in bytes of the white-space rune encoded at the front of [s],
    or [0] when none starts there.  This is [unicode.IsSpace] read through
    UTF-8: the six ASCII spaces, U+0085, U+00A0, U+1680, U+2000..U+200A,
    U+2028, U+2029, U+202F, U+205F and U+3000.  The lead bytes involved
    are never continuation bytes, so Go's rune-by-rune scan meets each
    such encoding exactly at its first byte. *)
Definition spaceWidth (s : string) : nat :=
  match s with
  | EmptyString => O
  | String c0 r0 =>
      let b0 := N_of_ascii c0 in
      if ((9 <=? b0) && (b0 <=? 13) || (b0 =? 32))%N then 1%nat
      else match r0 with
      | EmptyString => O
      | String c1 r1 =>
          let b1 := N_of_ascii c1 in
          if (b0 =? 194)%N then (if ((b1 =? 133) || (b1 =? 160))%N then 2%nat else O)
          else match r1 with
          | EmptyString => O
          | String c2 _ =>
              let b2 := N_of_ascii c2 in
              if ((b0 =? 225) && (b1 =? 154) && (b2 =? 128))%N then 3%nat
              else if ((b0 =? 226) && (b1 =? 128) &&
                       ((128 <=? b2) && (b2 <=? 138) || (b2 =? 168) || (b2 =? 169) || (b2 =? 175)))%N
                   then 3%nat
              else if ((b0 =? 226) && (b1 =? 129) && (b2 =? 159))%N then 3%nat
              else if ((b0 =? 227) && (b1 =? 128) && (b2 =? 128))%N then 3%nat
              else O
          end
      end
  end.

Definition consField (cur : string) (more : list string) : list string :=
  match cur with
  | EmptyString => more
  | String _ _ => cur :: more
  end.

(** The run of non-space bytes at the front of [s] and the fields after
    it; [skip] counts the remaining bytes of a white-space rune. *)
Fixpoint scanFields (skip : nat) (s : string) : string * list string :=
  match s with
  | EmptyString => (EmptyString, [])
  | String c rest =>
      match skip with
      | S k => scanFields k rest
      | O =>
          match spaceWidth s with
          | O => let '(cur, more) := scanFields O rest in (String c cur, more)
          | S k => let '(cur, more) := scanFields k rest in (EmptyString, consField cur more)
          end
      end
  end.

(** [strings.Fields(s)]: the maximal runs of non-space runes, in order. *)
Definition Fields (s : string) : list string :=
  let '(cur, more) := scanFields O s in consField cur more.

End strings.

(* ===================================================================== *)
(** * Packages [net/url] and [path/filepath] *)
(* ===================================================================== *)

Module url.

Definition hexDigit (n : N) : ascii :=
  ascii_of_N (if (n <? 10)%N then 48 + n else 55 + n)%N.

(** Bytes that [QueryEscape] leaves alone: letters, digits, [-_.~]. *)
Definition unreserved (c : ascii) : bool :=
  let b := N_of_ascii c in
  ((48 <=? b) && (b <=? 57) || (65 <=? b) && (b <=? 90) || (97 <=? b) && (b <=? 122)
   || (b =? 45) || (b =? 95) || (b =? 46) || (b =? 126))%N.

(** [url.QueryEscape(s)] *)
Fixpoint QueryEscape (s : string) : string :=
  match s with
  | EmptyString => EmptyString
  | String c rest =>
      let b := N_of_ascii c in
      if unreserved c then String c (QueryEscape rest)
      else if (b =? 32)%N then String "+" (QueryEscape rest)
      else String "%" (String (hexDigit (b / 16)) (String (hexDigit (b mod 16)) (QueryEscape rest)))
  end.

(** [url.Values{}] after one [Set(key, value)], then [Encode()]. *)
Definition EncodeSingle (key value : string) : string :=
  QueryEscape key +:+ "=" +:+ QueryEscape value.

End url.

Module filepath.

(** Everything after the last ['/'] of [s]. *)
Fixpoint lastElem (s : string) : string :=
  match s with
  | EmptyString => EmptyString
  | String c rest =>
      if strings.Contains rest "/" then lastElem rest
      else if Ascii.eqb c "/" then rest else s
  end.

(** [filepath.Base(path)] with ['/'] as the separator. *)
Definition Base (path : string) : string :=
  match path with
  | EmptyString => "."
  | String _ _ =>
      match lastElem (strings.TrimRight path "/") with
      | EmptyString => "/"
      | String _ _ as elem => elem
      end
  end.

End filepath.

(* ===================================================================== *)
(** * Packages [time], [context], [io] *)
(* ===================================================================== *)

(** A [time.Time] as an instant: seconds since January 1, year 1,
    00:00:00 UTC, and nanoseconds within the second.  The zero value of
    the Go type is that origin. *)
Record Time : Type := mkTime { seconds : Z; nanos : Z }.
Definition zeroTime : Time := mkTime 0 0.

(** [time.Second], a [time.Duration] in nanoseconds. *)
Definition Second : Z := 1000000000.

(** A [context.Context] as far as request construction looks at it: the
    nil interface value is refused, anything else is carried along. *)
Inductive Context : Type :=
| nilContext
| Background
| WithDeadline (parent : Context) (nanoseconds : Z).

(** An [io.Reader]/[io.ReadCloser]: the bytes it yields and how the
    stream ends, with [io.EOF] ([None]) or with a read error. *)
Record ReadCloser : Type := mkReader { content : string; failure : option error }.

(** [io.ReadAll(r)]: the bytes read until the stream ended, and the error
    that ended it, if any. *)
Definition ReadAll (r : ReadCloser) : string * option error :=
  (content r, failure r).

(* ===================================================================== *)
(** * Package [net/http] *)
(* ===================================================================== *)

Module Header.

(** [http.Header]: canonical key to values. *)
Abbreviation t := (gmap string (list string)).

(** Token bytes (RFC 7230), the only ones allowed in a field name. *)
Definition validHeaderFieldByte (c : ascii) : bool :=
  let b := N_of_ascii c in
  ((48 <=? b) && (b <=? 57) || (65 <=? b) && (b <=? 90) || (97 <=? b) && (b <=? 122)
   || (b =? 33) || (35 <=? b) && (b <=? 39) || (b =? 42) || (b =? 43) || (b =? 45)
   || (b =? 46) || (b =? 94) || (b =? 95) || (b =? 96) || (b =? 124) || (b =? 126))%N.

Fixpoint allValid (s : string) : bool :=
  match s with
  | EmptyString => true
  | String c rest => validHeaderFieldByte c && allValid rest
  end.

Definition toUpper (c : ascii) : ascii :=
  let b := N_of_ascii c in if ((97 <=? b) && (b <=? 122))%N then ascii_of_N (b - 32) else c.
Definition toLower (c : ascii) : ascii :=
  let b := N_of_ascii c in if ((65 <=? b) && (b <=? 90))%N then ascii_of_N (b + 32) else c.

Fixpoint canonicalize (upper : bool) (s : string) : string :=
  match s with
  | EmptyString => EmptyString
  | String c rest =>
      let c' := if upper then toUpper c else toLower c in
      String c' (canonicalize (Ascii.eqb c' "-") rest)
  end.

(** [textproto.CanonicalMIMEHeaderKey]: first letter and every letter
    after a hyphen in upper case, the others in lower case; a key with a
    byte that is not a token byte is returned as it is. *)
Definition CanonicalMIMEHeaderKey (s : string) : string :=
  if allValid s then canonicalize true s else s.

(** [h.Set(key, value)] ([Set] itself is reserved) *)
Definition Set_ (h : t) (key value : string) : t :=
  <[CanonicalMIMEHeaderKey key := [value]]> h.

(** [h[CanonicalHeaderKey(key)]]: the entry a field name selects, if the
    map has one. *)
Definition lookup (h : t) (key : string) : option (list string) :=
  h !! CanonicalMIMEHeaderKey key.

(** [h.Get(key)]: the first value under the canonical key, or the empty
    string. *)
Definition Get (h : t) (key : string) : string :=
  match lookup h key with
  | Some (v :: _) => v
  | _ => EmptyString
  end.

End Header.

(** One file part written by [multipart.Writer.CreateFormFile]. *)
Record FormFile : Type := mkFormFile { fieldname : string; filename : string; data : string }.

(** What [NewRequestWithContext] is given as the body: nothing, or the
    [bytes.Buffer] a [multipart.Writer] with that boundary has filled and
    closed. *)
Inductive RequestBody : Type :=
| NoBody
| MultipartBuffer (boundary : string) (parts : list FormFile).

Module Request.
Record t : Type := mk {
  Method : string;
  URL : string;
  Header : Header.t;
  Body : RequestBody;
  Ctx : Context
}.
Definition withHeader (r : t) (h : Header.t) : t :=
  mk (Method r) (URL r) h (Body r) (Ctx r).
End Request.

Module Response.
Record t : Type := mk {
  StatusCode : Z;
  Header : Header.t;
  Body : ReadCloser;
  ContentLength : Z      (* -1 when the length is unknown *)
}.
End Response.

Definition MethodGet : string := "GET".
Definition MethodHead : string := "HEAD".
Definition MethodPost : string := "POST".
Definition MethodPut : string := "PUT".
Definition MethodDelete : string := "DELETE".
Definition StatusOK : Z := 200.
Definition StatusPartialContent : Z := 206.
(** [http.TimeFormat] *)
Definition TimeFormat : string := "Mon, 02 Jan 2006 15:04:05 GMT".

(** What carries a request to the outside, over the state [Ext] of
    everything outside the process (servers, network, clock): it answers a
    request with a response or a transport error and moves that state on. *)
Definition RoundTripper (Ext : Type) : Type :=
  Request.t -> Ext -> result Response.t * Ext.

(** [http.Client].  [Transport] stands for all that [Do] does with a
    request once it is built (redirects included), up to the response or
    the error [Do] returns. *)
Record HTTPClient (Ext : Type) : Type := mkHTTPClient {
  Timeout : Z;
  Transport : RoundTripper Ext
}.
Arguments mkHTTPClient {Ext} _ _.
Arguments Timeout {Ext} _.
Arguments Transport {Ext} _.

(** The effects the outside can observe: an HTTP exchange through some
    [http.Client], and the opening of a local file ([os.Open], as the
    example program does for its image upload). *)
Inductive Event (Ext : Type) : Type :=
| Exchange (via : HTTPClient Ext) (req : Request.t) (out : result Response.t)
| OpenFile (path : string).
Arguments Exchange {Ext} via req out.
Arguments OpenFile {Ext} path.

Record World (Ext : Type) : Type := mkWorld { ext : Ext; log : list (Event Ext) }.
Arguments mkWorld {Ext} _ _.
Arguments ext {Ext} _.
Arguments log {Ext} _.

(* ===================================================================== *)
(** * Package [client]: the types *)
(* ===================================================================== *)

Module ObjectInfo.
Record t : Type := mk {
  Key : string;
  Name : string;
  ContentType : string;
  LastModified : Time;
  ETag : string;
  Size : Z
}.
End ObjectInfo.

Module ListBucketResult.
Record t : Type := mk {
  Name : string;
  Prefix : string;
  Contents : list ObjectInfo.t
}.
End ListBucketResult.

Module UploadResult.
Record t : Type := mk {
  Key : string;
  ETag : string;
  PreviewURL : string;
  ThumbnailURL : string
}.
End UploadResult.

Module ClientOptions.
Record t (Ext : Type) : Type := mk {
  BaseURL : string;
  APIKey : string;
  HTTPClient : option (HTTPClient Ext);   (* [None] is the nil pointer *)
  Timeout : Z
}.
Arguments mk {Ext} _ _ _ _.
Arguments BaseURL {Ext} _.
Arguments APIKey {Ext} _.
Arguments HTTPClient {Ext} _.
Arguments Timeout {Ext} _.
End ClientOptions.

Record Client (Ext : Type) : Type := mkClient {
  baseURL : string;
  httpClient : HTTPClient Ext;
  apiKey : string
}.
Arguments mkClient {Ext} _ _ _.
Arguments baseURL {Ext} _.
Arguments httpClient {Ext} _.
Arguments apiKey {Ext} _.

(* ===================================================================== *)
(** * What the client takes from the Go runtime *)
(* ===================================================================== *)

(** Library behaviour the client calls but does not define.  Nothing is
    assumed about these functions beyond their types unless a statement
    says so. *)
Record Runtime (Ext : Type) : Type := mkRuntime {
  (** the error [url.Parse] reports for a URL text, if any *)
  url_Parse : string -> option error;
  (** [time.Parse(layout, value)], both returned values *)
  time_Parse : string -> string -> Time * option error;
  (** [xml.NewDecoder(r).Decode(&v)] at [v : ListBucketResult] *)
  xml_Decode : ReadCloser -> result ListBucketResult.t;
  (** the boundary a fresh [multipart.Writer] draws from [crypto/rand] *)
  randomBoundary : Ext -> string * Ext;
  (** [http.DefaultTransport] *)
  DefaultTransport : RoundTripper Ext
}.
Arguments mkRuntime {Ext} _ _ _ _ _.
Arguments url_Parse {Ext} _ _.
Arguments time_Parse {Ext} _ _ _.
Arguments xml_Decode {Ext} _ _.
Arguments randomBoundary {Ext} _ _.
Arguments DefaultTransport {Ext} _.

(** Computations that talk to the outside. *)
Definition M (Ext A : Type) : Type := World Ext -> A * World Ext.

Definition retM {Ext A} (a : A) : M Ext A := fun w => (a, w).
Definition bindM {Ext A B} (m : M Ext A) (k : A -> M Ext B) : M Ext B :=
  fun w => let '(a, w') := m w in k a w'.

Notation "x <~ m ; k" := (bindM m (fun x => k))
  (at level 20, m at level 100, k at level 200, only parsing).

Section ClientCode.

Context {Ext : Type} (rt : Runtime Ext).

(** ** The pieces of [net/http] and [mime/multipart] that are called *)

(** [http.NewRequestWithContext(ctx, method, url, body)], for the method
    constants above (all of them valid method tokens). *)
Definition NewRequestWithContext (ctx : Context) (method url : string)
    (body : RequestBody) : result Request.t :=
  match ctx with
  | nilContext => Err (errorString "net/http: nil Context")
  | _ =>
      match url_Parse rt url with
      | Some err => Err err
      | None => Ok (Request.mk method url ∅ body ctx)
      end
  end.

(** [c.Do(req)]: one exchange through the client's transport. *)
Definition Do (h : HTTPClient Ext) (req : Request.t) : M Ext (result Response.t) :=
  fun w =>
    let '(out, e') := Transport h req (ext w) in
    (out, mkWorld e' (log w ++ [Exchange h req out])).

(** [http.DefaultClient] *)
Definition DefaultClient : HTTPClient Ext := mkHTTPClient 0 (DefaultTransport rt).

(** [c.Head(url)] of [http.Client] *)
Definition Head (h : HTTPClient Ext) (url : string) : M Ext (result Response.t) :=
  match NewRequestWithContext Background MethodHead url NoBody with
  | Err err => retM (Err err)
  | Ok req => Do h req
  end.

(** [multipart.NewWriter(&buf)] *)
Definition NewWriter : M Ext string :=
  fun w => let '(b, e') := randomBoundary rt (ext w) in (b, mkWorld e' (log w)).

Definition quote : string := String (ascii_of_nat 34) EmptyString.
Definition newline : string := String (ascii_of_nat 10) EmptyString.
Definition backslash : string := String (ascii_of_nat 92) EmptyString.

Fixpoint ContainsAny (s chars : string) : bool :=
  match s with
  | EmptyString => false
  | String c rest => strings.inCutset c chars || ContainsAny rest chars
  end.

(** [writer.FormDataContentType()] *)
Definition FormDataContentType (boundary : string) : string :=
  let b := if ContainsAny boundary ("()<>@,;:" +:+ backslash +:+ quote +:+ "/[]?= ")
           then quote +:+ boundary +:+ quote else boundary in
  "multipart/form-data; boundary=" +:+ b.

(** ** [client] *)

Definition previewLabel : string := "预览地址:".
Definition thumbnailLabel : string := "缩略图地址:".

(** NewClient creates a new GTM Storage client *)
Definition NewClient (options : ClientOptions.t Ext) : Client Ext :=
  let httpc :=
    match ClientOptions.HTTPClient options with
    | None =>
        let timeout := ClientOptions.Timeout options in
        let timeout := if timeout =? 0 then 30 * Second else timeout in
        mkHTTPClient timeout (DefaultTransport rt)
    | Some h => h
    end in
  mkClient (strings.TrimRight (ClientOptions.BaseURL options) "/")
           httpc
           (ClientOptions.APIKey options).

(** addAuth adds authentication to the request *)
Definition addAuth (c : Client Ext) (req : Request.t) : Request.t :=
  if negb (String.eqb (apiKey c) "") then
    let h := Header.Set_ (Request.Header req) "Authorization" ("Bearer " +:+ apiKey c) in
    let h := Header.Set_ h "X-API-Key" (apiKey c) in
    Request.withHeader req h
  else req.

(** The error every operation builds from a refused response. *)
Definition statusError (what body : string) (status : Z) : error :=
  errorString (what +:+ body +:+ " (status: " +:+ itoa status +:+ ")").

(** MakeBucket creates a new bucket *)
Definition MakeBucket (c : Client Ext) (ctx : Context) (bucketName : string)
    : M Ext (option error) :=
  let url := baseURL c +:+ "/api/" +:+ bucketName in
  match NewRequestWithContext ctx MethodPost url NoBody with
  | Err err => retM (Some (wrapError "failed to create request: " err))
  | Ok req =>
      let req := addAuth c req in
      r <~ Do (httpClient c) req ;
      match r with
      | Err err => retM (Some (wrapError "failed to make request: " err))
      | Ok resp =>
          if negb (Response.StatusCode resp =? StatusOK) then
            let '(body, _) := ReadAll (Response.Body resp) in
            retM (Some (statusError "failed to create bucket: " body (Response.StatusCode resp)))
          else retM None
      end
  end.

(** DeleteBucket deletes a bucket *)
Definition DeleteBucket (c : Client Ext) (ctx : Context) (bucketName : string)
    : M Ext (option error) :=
  let url := baseURL c +:+ "/api/" +:+ bucketName in
  match NewRequestWithContext ctx MethodDelete url NoBody with
  | Err err => retM (Some (wrapError "failed to create request: " err))
  | Ok req =>
      let req := addAuth c req in
      r <~ Do (httpClient c) req ;
      match r with
      | Err err => retM (Some (wrapError "failed to make request: " err))
      | Ok resp =>
          if negb (Response.StatusCode resp =? StatusOK) then
            let '(body, _) := ReadAll (Response.Body resp) in
            retM (Some (statusError "failed to delete bucket: " body (Response.StatusCode resp)))
          else retM None
      end
  end.

(** One turn of the loop over the lines of the upload response. *)
Definition scanLine (result : UploadResult.t) (line : string) : UploadResult.t :=
  let result :=
    if strings.Contains line previewLabel then
      let parts := strings.Fields line in
      if (1 <? length parts)%nat
      then UploadResult.mk (UploadResult.Key result) (UploadResult.ETag result)
                           (List.last parts EmptyString) (UploadResult.ThumbnailURL result)
      else result
    else result in
  if strings.Contains line thumbnailLabel then
    let parts := strings.Fields line in
    if (1 <? length parts)%nat
    then UploadResult.mk (UploadResult.Key result) (UploadResult.ETag result)
                         (UploadResult.PreviewURL result) (List.last parts EmptyString)
    else result
  else result.

(** PutObject uploads an object to the bucket.  [CreateFormFile] writes
    into a [bytes.Buffer] and cannot fail, so its error branch is not
    reachable; [io.Copy] fails when the reader does. *)
Definition PutObject (c : Client Ext) (ctx : Context) (bucketName objectKey : string)
    (reader : ReadCloser) (filename : string) : M Ext (result UploadResult.t) :=
  let url := baseURL c +:+ "/api/" +:+ bucketName +:+ "/" +:+ objectKey in
  boundary <~ NewWriter ;
  match ReadAll reader with
  | (_, Some err) => retM (Err (wrapError "failed to copy file data: " err))
  | (payload, None) =>
      let buf := MultipartBuffer boundary [mkFormFile "file" filename payload] in
      match NewRequestWithContext ctx MethodPut url buf with
      | Err err => retM (Err (wrapError "failed to create request: " err))
      | Ok req =>
          let req := Request.withHeader req
                       (Header.Set_ (Request.Header req) "Content-Type"
                                    (FormDataContentType boundary)) in
          let req := addAuth c req in
          r <~ Do (httpClient c) req ;
          match r with
          | Err err => retM (Err (wrapError "failed to make request: " err))
          | Ok resp =>
              if negb (Response.StatusCode resp =? StatusOK) then
                let '(body, _) := ReadAll (Response.Body resp) in
                retM (Err (statusError "failed to upload object: " body (Response.StatusCode resp)))
              else
                match ReadAll (Response.Body resp) with
                | (_, Some err) => retM (Err (wrapError "failed to read response: " err))
                | (bodyStr, None) =>
                    let result :=
                      UploadResult.mk objectKey (Header.Get (Response.Header resp) "ETag")
                                      EmptyString EmptyString in
                    let result :=
                      if strings.Contains bodyStr previewLabel then
                        let lines := strings.Split bodyStr newline in
                        fold_left scanLine lines result
                      else result in
                    retM (Ok result)
                end
          end
      end
  end.

(** GetObject retrieves an object from the bucket *)
Definition GetObject (c : Client Ext) (ctx : Context) (bucketName objectKey : string)
    : M Ext (result ReadCloser) :=
  let url := baseURL c +:+ "/api/" +:+ bucketName +:+ "/" +:+ objectKey in
  match NewRequestWithContext ctx MethodGet url NoBody with
  | Err err => retM (Err (wrapError "failed to create request: " err))
  | Ok req =>
      r <~ Do (httpClient c) req ;
      match r with
      | Err err => retM (Err (wrapError "failed to make request: " err))
      | Ok resp =>
          if negb (Response.StatusCode resp =? StatusOK) then
            let '(body, _) := ReadAll (Response.Body resp) in
            retM (Err (statusError "failed to get object: " body (Response.StatusCode resp)))
          else retM (Ok (Response.Body resp))
      end
  end.

(** GetObjectRange retrieves a range of bytes from an object *)
Definition GetObjectRange (c : Client Ext) (ctx : Context) (bucketName objectKey : string)
    (start end_ : Z) : M Ext (result ReadCloser) :=
  let url := baseURL c +:+ "/api/" +:+ bucketName +:+ "/" +:+ objectKey in
  match NewRequestWithContext ctx MethodGet url NoBody with
  | Err err => retM (Err (wrapError "failed to create request: " err))
  | Ok req =>
      let req :=
        if (0 <? start) || (0 <? end_) then
          let rangeHeader := "bytes=" +:+ itoa start +:+ "-" +:+ itoa end_ in
          Request.withHeader req (Header.Set_ (Request.Header req) "Range" rangeHeader)
        else req in
      r <~ Do (httpClient c) req ;
      match r with
      | Err err => retM (Err (wrapError "failed to make request: " err))
      | Ok resp =>
          if negb (Response.StatusCode resp =? StatusOK)
             && negb (Response.StatusCode resp =? StatusPartialContent) then
            let '(body, _) := ReadAll (Response.Body resp) in
            retM (Err (statusError "failed to get object: " body (Response.StatusCode resp)))
          else retM (Ok (Response.Body resp))
      end
  end.

(** DeleteObject deletes an object from the bucket *)
Definition DeleteObject (c : Client Ext) (ctx : Context) (bucketName objectKey : string)
    : M Ext (option error) :=
  let url := baseURL c +:+ "/api/" +:+ bucketName +:+ "/" +:+ objectKey in
  match NewRequestWithContext ctx MethodDelete url NoBody with
  | Err err => retM (Some (wrapError "failed to create request: " err))
  | Ok req =>
      let req := addAuth c req in
      r <~ Do (httpClient c) req ;
      match r with
      | Err err => retM (Some (wrapError "failed to make request: " err))
      | Ok resp =>
          if negb (Response.StatusCode resp =? StatusOK) then
            let '(body, _) := ReadAll (Response.Body resp) in
            retM (Some (statusError "failed to delete object: " body (Response.StatusCode resp)))
          else retM None
      end
  end.

(** HeadObject retrieves object metadata *)
Definition HeadObject (c : Client Ext) (ctx : Context) (bucketName objectKey : string)
    : M Ext (result ObjectInfo.t) :=
  let url := baseURL c +:+ "/api/" +:+ bucketName +:+ "/" +:+ objectKey in
  match NewRequestWithContext ctx MethodHead url NoBody with
  | Err err => retM (Err (wrapError "failed to create request: " err))
  | Ok req =>
      r <~ Do (httpClient c) req ;
      match r with
      | Err err => retM (Err (wrapError "failed to make request: " err))
      | Ok resp =>
          if negb (Response.StatusCode resp =? StatusOK) then
            let '(body, _) := ReadAll (Response.Body resp) in
            retM (Err (statusError "failed to get object metadata: " body (Response.StatusCode resp)))
          else
            (* Parse Last-Modified *)
            let '(lastModified, _) :=
              time_Parse rt TimeFormat (Header.Get (Response.Header resp) "Last-Modified") in
            retM (Ok (ObjectInfo.mk
                        objectKey
                        EmptyString
                        (Header.Get (Response.Header resp) "Content-Type")
                        lastModified
                        (strings.Trim (Header.Get (Response.Header resp) "ETag") quote)
                        (Response.ContentLength resp)))
      end
  end.

(** ListObjects lists objects in a bucket *)
Definition ListObjects (c : Client Ext) (ctx : Context) (bucketName prefix : string)
    : M Ext (result (list ObjectInfo.t)) :=
  let baseURL := baseURL c +:+ "/api/" +:+ bucketName in
  (* Add prefix parameter if provided *)
  let baseURL :=
    if negb (String.eqb prefix "")
    then baseURL +:+ "?" +:+ url.EncodeSingle "prefix" prefix
    else baseURL in
  match NewRequestWithContext ctx MethodGet baseURL NoBody with
  | Err err => retM (Err (wrapError "failed to create request: " err))
  | Ok req =>
      r <~ Do (httpClient c) req ;
      match r with
      | Err err => retM (Err (wrapError "failed to make request: " err))
      | Ok resp =>
          if negb (Response.StatusCode resp =? StatusOK) then
            let '(body, _) := ReadAll (Response.Body resp) in
            retM (Err (statusError "failed to list objects: " body (Response.StatusCode resp)))
          else
            match xml_Decode rt (Response.Body resp) with
            | Err err => retM (Err (wrapError "failed to parse response: " err))
            | Ok result => retM (Ok (ListBucketResult.Contents result))
            end
      end
  end.

(** PutObjectFromFile uploads a file to the bucket *)
Definition PutObjectFromFile (c : Client Ext) (ctx : Context)
    (bucketName objectKey filePath : string) : M Ext (result UploadResult.t) :=
  r <~ Head DefaultClient filePath ;
  match r with
  | Err err => retM (Err (wrapError "failed to open file: " err))
  | Ok file =>
      let filename := filepath.Base filePath in
      PutObject c ctx bucketName objectKey (Response.Body file) filename
  end.

(** GetObjectURL returns the direct URL to access an object *)
Definition GetObjectURL (c : Client Ext) (bucketName objectKey : string) : string :=
  baseURL c +:+ "/api/" +:+ bucketName +:+ "/" +:+ objectKey.

(** ** The operation set as one table

    The eight operations that answer to a status code, as data, so that a
    statement can range over all of them. *)
Inductive Operation : Type :=
| OpMakeBucket (bucketName : string)
| OpDeleteBucket (bucketName : string)
| OpPutObject (bucketName objectKey : string) (reader : ReadCloser) (filename : string)
| OpGetObject (bucketName objectKey : string)
| OpGetObjectRange (bucketName objectKey : string) (start end_ : Z)
| OpDeleteObject (bucketName objectKey : string)
| OpHeadObject (bucketName objectKey : string)
| OpListObjects (bucketName prefix : string).

(** What an operation hands back when its error is nil. *)
Inductive Success : Type :=
| Done
| Uploaded (r : UploadResult.t)
| Stream (body : ReadCloser)
| Metadata (info : ObjectInfo.t)
| Listing (objects : list ObjectInfo.t).

Definition ofError (e : option error) : result Success :=
  match e with
  | None => Ok Done
  | Some err => Err err
  end.

Definition ofResult {A} (inj : A -> Success) (r : result A) : result Success :=
  match r with
  | Ok a => Ok (inj a)
  | Err err => Err err
  end.

Definition run (c : Client Ext) (ctx : Context) (op : Operation) : M Ext (result Success) :=
  match op with
  | OpMakeBucket b => e <~ MakeBucket c ctx b ; retM (ofError e)
  | OpDeleteBucket b => e <~ DeleteBucket c ctx b ; retM (ofError e)
  | OpPutObject b k reader filename =>
      r <~ PutObject c ctx b k reader filename ; retM (ofResult Uploaded r)
  | OpGetObject b k => r <~ GetObject c ctx b k ; retM (ofResult Stream r)
  | OpGetObjectRange b k start end_ =>
      r <~ GetObjectRange c ctx b k start end_ ; retM (ofResult Stream r)
  | OpDeleteObject b k => e <~ DeleteObject c ctx b k ; retM (ofError e)
  | OpHeadObject b k => r <~ HeadObject c ctx b k ; retM (ofResult Metadata r)
  | OpListObjects b prefix => r <~ ListObjects c ctx b prefix ; retM (ofResult Listing r)
  end.

(** The status codes an operation accepts (section 6 of the
    specification) and the text its refusal starts with. *)
Definition accepted (op : Operation) : list Z :=
  match op with
  | OpGetObjectRange _ _ _ _ => [StatusOK; StatusPartialContent]
  | _ => [StatusOK]
  end.

(** The operations that call [addAuth]. *)
Definition authenticated (op : Operation) : bool :=
  match op with
  | OpMakeBucket _ | OpDeleteBucket _ | OpPutObject _ _ _ _ | OpDeleteObject _ _ => true
  | _ => false
  end.

Definition refusal (op : Operation) : string :=
  match op with
  | OpMakeBucket _ => "failed to create bucket: "
  | OpDeleteBucket _ => "failed to delete bucket: "
  | OpPutObject _ _ _ _ => "failed to upload object: "
  | OpGetObject _ _ => "failed to get object: "
  | OpGetObjectRange _ _ _ _ => "failed to get object: "
  | OpDeleteObject _ _ => "failed to delete object: "
  | OpHeadObject _ _ => "failed to get object metadata: "
  | OpListObjects _ _ => "failed to list objects: "
  end.

End ClientCode.

(* ===================================================================== *)
(** * Vocabulary of the statements *)
(* ===================================================================== *)

Section Vocabulary.

Context {Ext : Type} (rt : Runtime Ext).

Import strings.

Definition bucketURL (c : Client Ext) (bucketName : string) : string :=
  baseURL c +:+ "/api/" +:+ bucketName.

Definition objectURL (c : Client Ext) (bucketName objectKey : string) : string :=
  baseURL c +:+ "/api/" +:+ bucketName +:+ "/" +:+ objectKey.

(** The answer of an operation that returns only an error. *)
Definition verdict (what : string) (out : result Response.t) : option error :=
  match out with
  | Err err => Some (wrapError "failed to make request: " err)
  | Ok resp =>
      if negb (Response.StatusCode resp =? StatusOK)
      then Some (statusError what (content (Response.Body resp)) (Response.StatusCode resp))
      else None
  end.

(** What [HeadObject] makes of the headers of an accepted response. *)
Definition metadataOf (objectKey : string) (resp : Response.t) : ObjectInfo.t :=
  ObjectInfo.mk
    objectKey
    EmptyString
    (Header.Get (Response.Header resp) "Content-Type")
    (fst (time_Parse rt TimeFormat (Header.Get (Response.Header resp) "Last-Modified")))
    (strings.Trim (Header.Get (Response.Header resp) "ETag") quote)
    (Response.ContentLength resp).

Definition listURL (c : Client Ext) (bucketName prefix : string) : string :=
  if negb (String.eqb prefix "")
  then bucketURL c bucketName +:+ "?" +:+ url.EncodeSingle "prefix" prefix
  else bucketURL c bucketName.

(** What [PutObject] makes of an accepted response whose body was read
    to the end. *)
Definition uploadOf (objectKey : string) (resp : Response.t) : UploadResult.t :=
  let result :=
    UploadResult.mk objectKey (Header.Get (Response.Header resp) "ETag")
                    EmptyString EmptyString in
  if strings.Contains (content (Response.Body resp)) previewLabel
  then fold_left scanLine
         (strings.Split (content (Response.Body resp)) newline)
         result
  else result.

Definition putRequest (c : Client Ext) (ctx : Context) (bucketName objectKey : string)
    (payload filename boundary : string) : Request.t :=
  addAuth c
    (Request.mk MethodPut (objectURL c bucketName objectKey)
       (Header.Set_ ∅ "Content-Type" (FormDataContentType boundary))
       (MultipartBuffer boundary [mkFormFile "file" filename payload])
       ctx).

(** ** Words of the specification about the upload response *)

(** A line counts for a label when it contains the label and has at
    least two white-space separated tokens. *)
Definition labelled (label line : string) : bool :=
  strings.Contains line label && (1 <? length (strings.Fields line))%nat.

(** The last token of the last line of [body] that counts for [label],
    or the empty string when no line does. *)
Definition extracted (label body : string) : string :=
  match last (List.filter (labelled label) (strings.Split body newline)) with
  | Some line => List.last (strings.Fields line) EmptyString
  | None => EmptyString
  end.

(** What is taken for granted about [time.Parse]: every error comes with
    the zero [Time], and the empty text is not a date in
    [http.TimeFormat]. *)
Definition GoTimeParse : Prop :=
  (forall layout value t e, time_Parse rt layout value = (t, Some e) -> t = zeroTime) /\
  snd (time_Parse rt TimeFormat EmptyString) <> None.

(** The request [http.Client.Head] builds for a URL text. *)
Definition headRequest (target : string) : Request.t :=
  Request.mk MethodHead target ∅ NoBody Background.

(** The text after the trimmed part is made of cutset bytes only. *)
Fixpoint allIn (cutset s : string) : bool :=
  match s with
  | EmptyString => true
  | String c rest => inCutset c cutset && allIn cutset rest
  end.

Definition lastByte (s : string) : option ascii :=
  last (String.list_ascii_of_string s).

End Vocabulary.

(* ===================================================================== *)
(** * The operations as a pipeline: build, exchange, interpret *)
(* ===================================================================== *)

Section Pipeline.

Context {Ext : Type} (rt : Runtime Ext).


Definition requestURL (c : Client Ext) (op : Operation) : string :=
  match op with
  | OpMakeBucket b | OpDeleteBucket b => bucketURL c b
  | OpListObjects b prefix => listURL c b prefix
  | OpPutObject b k _ _ | OpGetObject b k | OpGetObjectRange b k _ _
  | OpDeleteObject b k | OpHeadObject b k => objectURL c b k
  end.

(** The error that stops [NewRequestWithContext], if any: a nil context,
    or a URL text that does not parse. *)
Definition buildError (ctx : Context) (target : string) : option error :=
  match ctx with
  | nilContext => Some (errorString "net/http: nil Context")
  | _ => url_Parse rt target
  end.

(** The read error that stops an upload before its request is built: the
    other operations read nothing before they send. *)
Definition unread (op : Operation) : option error :=
  match op with
  | OpPutObject _ _ reader _ => failure reader
  | _ => None
  end.

Definition isUpload (op : Operation) : bool :=
  match op with
  | OpPutObject _ _ _ _ => true
  | _ => false
  end.

(** The request an operation sends from the world [w], when it gets to
    send one. *)
Definition request (c : Client Ext) (ctx : Context) (op : Operation) (w : World Ext)
    : Request.t :=
  match op with
  | OpMakeBucket b => addAuth c (Request.mk MethodPost (bucketURL c b) ∅ NoBody ctx)
  | OpDeleteBucket b => addAuth c (Request.mk MethodDelete (bucketURL c b) ∅ NoBody ctx)
  | OpPutObject b k reader fn =>
      putRequest c ctx b k (content reader) fn (fst (randomBoundary rt (ext w)))
  | OpGetObject b k => Request.mk MethodGet (objectURL c b k) ∅ NoBody ctx
  | OpGetObjectRange b k start end_ =>
      Request.mk MethodGet (objectURL c b k)
        (if (0 <? start) || (0 <? end_)
         then Header.Set_ ∅ "Range" ("bytes=" +:+ itoa start +:+ "-" +:+ itoa end_)
         else ∅)
        NoBody ctx
  | OpDeleteObject b k => addAuth c (Request.mk MethodDelete (objectURL c b k) ∅ NoBody ctx)
  | OpHeadObject b k => Request.mk MethodHead (objectURL c b k) ∅ NoBody ctx
  | OpListObjects b prefix => Request.mk MethodGet (listURL c b prefix) ∅ NoBody ctx
  end.

(** What an operation makes of a response whose status it accepts. *)
Definition accept (op : Operation) (resp : Response.t) : result Success :=
  match op with
  | OpMakeBucket _ | OpDeleteBucket _ | OpDeleteObject _ _ => Ok Done
  | OpGetObject _ _ | OpGetObjectRange _ _ _ _ => Ok (Stream (Response.Body resp))
  | OpHeadObject _ k => Ok (Metadata (metadataOf rt k resp))
  | OpListObjects _ _ =>
      match xml_Decode rt (Response.Body resp) with
      | Err err => Err (wrapError "failed to parse response: " err)
      | Ok doc => Ok (Listing (ListBucketResult.Contents doc))
      end
  | OpPutObject _ k _ _ =>
      match failure (Response.Body resp) with
      | Some err => Err (wrapError "failed to read response: " err)
      | None => Ok (Uploaded (uploadOf k resp))
      end
  end.

(** What an operation makes of the outcome of its exchange. *)
Definition interpret (op : Operation) (out : result Response.t) : result Success :=
  match out with
  | Err err => Err (wrapError "failed to make request: " err)
  | Ok resp =>
      if existsb (Z.eqb (Response.StatusCode resp)) (accepted op)
      then accept op resp
      else Err (statusError (refusal op) (content (Response.Body resp))
                            (Response.StatusCode resp))
  end.

(** An operation as the three stages the specification names: the request
    builder, one call of the transport, the response interpreter.  An
    upload first draws its boundary and drains its reader. *)
Definition pipeline (c : Client Ext) (ctx : Context) (op : Operation)
    : M Ext (result Success) :=
  fun w =>
    let outside := if isUpload op then snd (randomBoundary rt (ext w)) else ext w in
    match unread op with
    | Some err => (Err (wrapError "failed to copy file data: " err), mkWorld outside (log w))
    | None =>
        match buildError ctx (requestURL c op) with
        | Some err =>
            (Err (wrapError "failed to create request: " err), mkWorld outside (log w))
        | None =>
            let req := request c ctx op w in
            let '(out, outside') := Transport (httpClient c) req outside in
            (interpret op out, mkWorld outside' (log w ++ [Exchange (httpClient c) req out]))
        end
    end.


(** The two reads, which hand a stream back. *)
Definition streams (op : Operation) : bool :=
  match op with
  | OpGetObject _ _ | OpGetObjectRange _ _ _ _ => true
  | _ => false
  end.

(** The outside as it is when the request goes out. *)
Definition outsideAtSend (op : Operation) (w : World Ext) : Ext :=
  if isUpload op then snd (randomBoundary rt (ext w)) else ext w.

(** ** Bytes of a text *)

Definition firstByte (s : string) : option ascii :=
  match s with
  | EmptyString => None
  | String c _ => Some c
  end.

Fixpoint allBytes (p : ascii -> bool) (s : string) : bool :=
  match s with
  | EmptyString => true
  | String c rest => p c && allBytes p rest
  end.

(** The bytes [url.QueryEscape] can produce. *)
Definition queryByte (c : ascii) : bool :=
  url.unreserved c || Ascii.eqb c "+" || Ascii.eqb c "%".

(** The value of a hexadecimal digit, in either case. *)
Definition unhex (c : ascii) : option N :=
  let b := N_of_ascii c in
  if ((48 <=? b) && (b <=? 57))%N then Some (b - 48)%N
  else if ((97 <=? b) && (b <=? 102))%N then Some (b - 87)%N
  else if ((65 <=? b) && (b <=? 70))%N then Some (b - 55)%N
  else None.

(** [url.QueryUnescape(s)], what a server does with the query: ['+'] is a
    space, ['%'] and two hexadecimal digits are one byte and an error
    ([None]) without them, any other byte is itself. *)
Fixpoint QueryUnescape (s : string) : option string :=
  match s with
  | EmptyString => Some EmptyString
  | String c rest =>
      if Ascii.eqb c "%" then
        match rest with
        | String h (String l rest') =>
            match unhex h, unhex l with
            | Some a, Some b => String (ascii_of_N (16 * a + b)) <$> QueryUnescape rest'
            | _, _ => None
            end
        | _ => None
        end
      else if Ascii.eqb c "+" then String " " <$> QueryUnescape rest
      else String c <$> QueryUnescape rest
  end.

(** The bytes of a [%d]: decimal digits and the minus sign. *)
Definition numericByte (c : ascii) : bool :=
  let b := N_of_ascii c in ((48 <=? b) && (b <=? 57) || (b =? 45))%N.

(** [strings.Join(elems, sep)] *)
Fixpoint Join (elems : list string) (sep : string) : string :=
  match elems with
  | [] => EmptyString
  | [x] => x
  | x :: rest => x +:+ sep +:+ Join rest sep
  end.

End Pipeline.

(* ===================================================================== *)
(** * A small runtime to run the client against

    One inhabitant of [Runtime], used to evaluate the client on concrete
    exchanges: a strict reader of the two date forms, a decoder for the
    element-only fragment of XML the listing uses, a fixed boundary, and
    servers given as functions of the request.  The readers are far
    stricter than the Go library, the URL check is coarser; they agree with
    it on the texts used in this file. *)
(* ===================================================================== *)

Module Lab.

(** *** Decimal fields and the calendar *)

Definition digit (c : ascii) : option Z :=
  let b := N_of_ascii c in
  if ((48 <=? b) && (b <=? 57))%N then Some (Z.of_N b - 48) else None.

Fixpoint digitsFrom (acc : Z) (s : string) : option Z :=
  match s with
  | EmptyString => Some acc
  | String c rest =>
      match digit c with
      | Some d => digitsFrom (10 * acc + d) rest
      | None => None
      end
  end.

(** A non-empty run of decimal digits. *)
Definition number (s : string) : option Z :=
  match s with
  | EmptyString => None
  | String _ _ => digitsFrom 0 s
  end.

Definition isLeap (y : Z) : bool :=
  ((y mod 4 =? 0) && negb (y mod 100 =? 0)) || (y mod 400 =? 0).

Definition daysIn (y m : Z) : Z :=
  if m =? 2 then (if isLeap y then 29 else 28)
  else if (m =? 4) || (m =? 6) || (m =? 9) || (m =? 11) then 30 else 31.

Fixpoint daysBefore (y : Z) (m : nat) : Z :=
  match m with
  | O => 0
  | S k => daysBefore y k + daysIn y (Z.of_nat (S k))
  end.

(** The instant of a civil date and time of day in UTC, when they exist. *)
Definition instant (y mo d h mi sec : Z) : option Time :=
  if (1 <=? mo) && (mo <=? 12) && (1 <=? d) && (d <=? daysIn y mo)
     && (h <? 24) && (mi <? 60) && (sec <? 60)
  then
    let y' := y - 1 in
    let days := 365 * y' + y' / 4 - y' / 100 + y' / 400
                + daysBefore y (Z.to_nat (mo - 1)) + (d - 1) in
    Some (mkTime (((days * 24 + h) * 60 + mi) * 60 + sec) 0)
  else None.

Definition monthNumber (s : string) : option Z :=
  let names := ["Jan"; "Feb"; "Mar"; "Apr"; "May"; "Jun";
                "Jul"; "Aug"; "Sep"; "Oct"; "Nov"; "Dec"] in
  (fix find (l : list string) (n : Z) : option Z :=
     match l with
     | [] => None
     | x :: rest => if String.eqb x s then Some n else find rest (n + 1)
     end) names 1.

Definition isDayName (s : string) : bool :=
  existsb (String.eqb s) ["Mon"; "Tue"; "Wed"; "Thu"; "Fri"; "Sat"; "Sun"].

Definition sub (from len : nat) (s : string) : string := String.substring from len s.

(** ["Mon, 02 Jan 2006 15:04:05 GMT"], every field at its fixed column. *)
Definition readFixdate (v : string) : option Time :=
  if (String.length v =? 29)%nat && isDayName (sub 0 3 v)
     && String.eqb (sub 3 2 v) ", " && String.eqb (sub 7 1 v) " "
     && String.eqb (sub 11 1 v) " " && String.eqb (sub 16 1 v) " "
     && String.eqb (sub 19 1 v) ":" && String.eqb (sub 22 1 v) ":"
     && String.eqb (sub 25 4 v) " GMT"
  then
    d ← number (sub 5 2 v); mo ← monthNumber (sub 8 3 v); y ← number (sub 12 4 v);
    h ← number (sub 17 2 v); mi ← number (sub 20 2 v); sec ← number (sub 23 2 v);
    instant y mo d h mi sec
  else None.

(** ["2006-01-02T15:04:05Z"], the form of [LastModified] in a listing. *)
Definition readRFC3339 (v : string) : option Time :=
  if (String.length v =? 20)%nat
     && String.eqb (sub 4 1 v) "-" && String.eqb (sub 7 1 v) "-"
     && String.eqb (sub 10 1 v) "T" && String.eqb (sub 13 1 v) ":"
     && String.eqb (sub 16 1 v) ":" && String.eqb (sub 19 1 v) "Z"
  then
    y ← number (sub 0 4 v); mo ← number (sub 5 2 v); d ← number (sub 8 2 v);
    h ← number (sub 11 2 v); mi ← number (sub 14 2 v); sec ← number (sub 17 2 v);
    instant y mo d h mi sec
  else None.

Definition parseError (layout value : string) : error :=
  errorString ("parsing time " +:+ value +:+ " as " +:+ layout +:+ ": cannot parse").

Definition time_Parse (layout value : string) : Time * option error :=
  if String.eqb layout TimeFormat then
    match readFixdate value with
    | Some t => (t, None)
    | None => (zeroTime, Some (parseError layout value))
    end
  else (zeroTime, Some (parseError layout value)).

(** *** The element-only fragment of XML *)

Inductive token : Type :=
| TOpen (name : string)
| TClose (name : string)
| TText (text : string).

#[warnings="-register-all"]
Inductive node : Type :=
| Elem (name : string) (children : list node)
| Text (text : string).

Definition revString (s : string) : string :=
  String.string_of_list_ascii (rev (String.list_ascii_of_string s)).

Definition flushText (acc : string) (rest : list token) : list token :=
  match acc with
  | EmptyString => rest
  | String _ _ => TText (revString acc) :: rest
  end.

(** A tag is a bare name or ['/'] and a bare name: no attributes, no
    declarations, no comments. *)
Definition plainName (s : string) : bool :=
  negb (String.eqb s "") &&
  negb (ContainsAny s (" /?!=" +:+ quote)).

Definition tagToken (acc : string) : option token :=
  match revString acc with
  | String "/" name => if plainName name then Some (TClose name) else None
  | name => if plainName name then Some (TOpen name) else None
  end.

Fixpoint lex (inTag : bool) (acc : string) (s : string) : option (list token) :=
  match s with
  | EmptyString => if inTag then None else Some (flushText acc [])
  | String c rest =>
      if Ascii.eqb c "<" then
        if inTag then None else flushText acc <$> lex true EmptyString rest
      else if Ascii.eqb c ">" && inTag then
        t ← tagToken acc; ts ← lex false EmptyString rest; Some (t :: ts)
      else if Ascii.eqb c "&" then None
      else lex inTag (String c acc) rest
  end.

(** [open] holds, innermost first, the elements still open with the
    children their parents have collected so far. *)
Fixpoint build (toks : list token) (open : list (string * list node))
    (cur : list node) : option (list node) :=
  match toks with
  | [] => match open with [] => Some (rev cur) | _ :: _ => None end
  | TText s :: rest => build rest open (Text s :: cur)
  | TOpen n :: rest => build rest ((n, cur) :: open) []
  | TClose n :: rest =>
      match open with
      | (n', outer) :: open' =>
          if String.eqb n n' then build rest open' (Elem n (rev cur) :: outer) else None
      | [] => None
      end
  end.

Definition textOf (children : list node) : string :=
  fold_right (fun n acc => match n with Text s => s +:+ acc | Elem _ _ => acc end)
             EmptyString children.

(** One child element of [<Contents>] stored into the entry; a later
    element of the same name overwrites an earlier one. *)
Definition fillEntry (acc : option ObjectInfo.t) (n : node) : option ObjectInfo.t :=
  o ← acc;
  let '(ObjectInfo.mk key name ctype modified etag size) := o in
  match n with
  | Text _ => Some o
  | Elem field cs =>
      let v := textOf cs in
      if String.eqb field "Key" then Some (ObjectInfo.mk v name ctype modified etag size)
      else if String.eqb field "Name" then Some (ObjectInfo.mk key v ctype modified etag size)
      else if String.eqb field "ContentType" then Some (ObjectInfo.mk key name v modified etag size)
      else if String.eqb field "LastModified" then
        t ← readRFC3339 v; Some (ObjectInfo.mk key name ctype t etag size)
      else if String.eqb field "ETag" then Some (ObjectInfo.mk key name ctype modified v size)
      else if String.eqb field "Size" then
        z ← number v; Some (ObjectInfo.mk key name ctype modified etag z)
      else Some o
  end.

Definition emptyEntry : ObjectInfo.t :=
  ObjectInfo.mk EmptyString EmptyString EmptyString zeroTime EmptyString 0.

(** One child of the root stored into the result; every [<Contents>]
    appends an entry, in document order. *)
Definition fillResult (acc : option ListBucketResult.t) (n : node) : option ListBucketResult.t :=
  r ← acc;
  let '(ListBucketResult.mk name prefix contents) := r in
  match n with
  | Text _ => Some r
  | Elem field cs =>
      if String.eqb field "Name" then Some (ListBucketResult.mk (textOf cs) prefix contents)
      else if String.eqb field "Prefix" then Some (ListBucketResult.mk name (textOf cs) contents)
      else if String.eqb field "Contents" then
        e ← fold_left fillEntry cs (Some emptyEntry);
        Some (ListBucketResult.mk name prefix (contents ++ [e]))
      else Some r
  end.

Definition syntaxError : error := errorString "XML syntax error".

Definition xml_Decode (body : ReadCloser) : result ListBucketResult.t :=
  let doc := toks ← lex false EmptyString (content body); build toks [] [] in
  match doc with
  | Some (Elem _ children :: _) =>
      match fold_left fillResult children
              (Some (ListBucketResult.mk EmptyString EmptyString [])) with
      | Some r => Ok r
      | None => Err syntaxError
      end
  | _ => match failure body with Some err => Err err | None => Err syntaxError end
  end.

(** *** Servers and the runtime *)

(** The outside is the number of requests served so far. *)
Definition server (answer : Request.t -> result Response.t) : RoundTripper nat :=
  fun req served => (answer req, S served).

Definition unreachable : RoundTripper nat :=
  server (fun _ => Err (errorString "dial tcp: connection refused")).

(** [strconv.Quote] on the texts met here: ASCII with its escapes, and
    bytes above 127 taken to spell printable runes and left as they are. *)
Definition lowerHex (n : N) : ascii :=
  ascii_of_N (if (n <? 10)%N then 48 + n else 87 + n)%N.

Definition quotedByte (c : ascii) : string :=
  let b := N_of_ascii c in
  let esc (x : string) := String (ascii_of_nat 92) x in
  if (b =? 34)%N then esc quote
  else if (b =? 92)%N then esc (String (ascii_of_nat 92) EmptyString)
  else if (b =? 7)%N then esc "a"
  else if (b =? 8)%N then esc "b"
  else if (b =? 9)%N then esc "t"
  else if (b =? 10)%N then esc "n"
  else if (b =? 11)%N then esc "v"
  else if (b =? 12)%N then esc "f"
  else if (b =? 13)%N then esc "r"
  else if ((b <? 32) || (b =? 127))%N
       then esc (String "x" (String (lowerHex (b / 16)) (String (lowerHex (b mod 16)) EmptyString)))
  else String c EmptyString.

Fixpoint quotedBytes (s : string) : string :=
  match s with
  | EmptyString => EmptyString
  | String c rest => quotedByte c +:+ quotedBytes rest
  end.

Definition Quote (s : string) : string := quote +:+ quotedBytes s +:+ quote.

(** The [*url.Error] of a failed [url.Parse]. *)
Definition urlError (target : string) (cause : error) : error :=
  wrapError ("parse " +:+ Quote target +:+ ": ") cause.

(** Control bytes are what [url.Parse] looks for first. *)
Fixpoint noControl (s : string) : bool :=
  match s with
  | EmptyString => true
  | String c rest =>
      let b := N_of_ascii c in ((32 <=? b) && negb (b =? 127))%N && noControl rest
  end.

(** The first ['%'] that is not followed by two hexadecimal digits, with
    up to two bytes after it. *)
Fixpoint badEscape (s : string) : option string :=
  match s with
  | EmptyString => None
  | String c rest =>
      if Ascii.eqb c "%" then
        match rest with
        | String h (String l rest') =>
            match unhex h, unhex l with
            | Some _, Some _ => badEscape rest'
            | _, _ => Some (String c (String h (String l EmptyString)))
            end
        | _ => Some s
        end
      else badEscape rest
  end.

(** Refused: a control byte, and a broken escape anywhere in the text
    (Go lets one pass in the query). *)
Definition url_Parse (u : string) : option error :=
  if negb (noControl u)
  then Some (urlError u (errorString "net/url: invalid control character in URL"))
  else match badEscape u with
       | Some bad => Some (urlError u (errorString ("invalid URL escape " +:+ Quote bad)))
       | None => None
       end.

Definition runtime (defaultTransport : RoundTripper nat) : Runtime nat :=
  mkRuntime url_Parse time_Parse xml_Decode
            (fun served => ("5f1d0c9a7be24e6388a1", served))
            defaultTransport.

Definition plain (status : Z) (headers : list (string * string)) (body : string)
    (length : Z) : Response.t :=
  Response.mk status
              (fold_left (fun h kv => Header.Set_ h (fst kv) (snd kv)) headers ∅)
              (mkReader body None) length.

Definition start : World nat := mkWorld O [].

(** The runtime whose default transport reaches nothing. *)
Definition rt : Runtime nat := runtime unreachable.

(** A client as the example program makes one, talking to [transport]. *)
Definition client (transport : RoundTripper nat) (key : string) : Client nat :=
  NewClient rt
    (ClientOptions.mk "http://127.0.0.1:3000/" key
       (Some (mkHTTPClient (30 * Second) transport)) 0).

Definition answering (resp : Response.t) : RoundTripper nat :=
  server (fun _ => Ok resp).

(** *** Responses used in the worked cases *)


Definition created : Response.t := plain 200 [] "OK" 2.

Definition uploaded : Response.t :=
  plain 200 [("ETag", "5d41402abc4b2a76")]
        ("上传成功" +:+ newline +:+ "预览地址: http://127.0.0.1:3000/preview/k" +:+ newline
         +:+ "缩略图地址: http://127.0.0.1:3000/thumb/k" +:+ newline)
        0.

Definition thumbnailOnly : Response.t :=
  plain 200 [("ETag", "5d41402abc4b2a76")] "缩略图地址: http://127.0.0.1:3000/thumb/k" 0.

Definition previewUnspaced : Response.t :=
  plain 200 [("ETag", "5d41402abc4b2a76")] "预览地址:http://127.0.0.1:3000/preview/k" 0.

(** A HEAD response without Content-Length: the length is unknown. *)
Definition headNoLength : Response.t :=
  plain 200 [("Content-Type", "text/plain"); ("Last-Modified", "yesterday")] "" (-1).

Definition listing : Response.t :=
  plain 200 [("Content-Type", "application/xml")]
        ("<ListBucketResult><Name>b</Name><Prefix>photos/</Prefix>"
         +:+ "<Contents><Key>photos/a.jpg</Key><Size>12</Size></Contents>"
         +:+ "<Contents><Key>docs/c.txt</Key><Size>3</Size></Contents>"
         +:+ "</ListBucketResult>")
        0.

End Lab.

(* ===================================================================== *)
(** * More exchanges to run the client against *)
(* ===================================================================== *)

Module Scenes.

(** A range answered with Partial Content. *)
Definition partial : Response.t := Lab.plain 206 [("Content-Range", "bytes 0-5/19")] "Hello," 6.

(** A refusal whose body breaks off while it is read. *)
Definition brokenRefusal : Response.t :=
  Response.mk 500 ∅ (mkReader "intern" (Some (errorString "unexpected EOF"))) 21.

(** An accepted upload whose body breaks off while it is read. *)
Definition brokenAccepted : Response.t :=
  Response.mk 200 ∅ (mkReader "上传" (Some (errorString "unexpected EOF"))) 40.

(** An object whose body breaks off while it is read. *)
Definition brokenObject : Response.t :=
  Response.mk 200 ∅ (mkReader "Hello" (Some (errorString "unexpected EOF"))) 19.

(** Metadata with the ETag in double quotes, as servers send it. *)
Definition quotedETag : Response.t :=
  Lab.plain 200 [("ETag", quote +:+ "5d41402abc4b2a76" +:+ quote)] "" 19.

(** A listing that is not XML. *)
Definition notXML : Response.t := Lab.plain 200 [] "<html>Bad Gateway" 17.

(** A payload whose reader fails. *)
Definition brokenPayload : ReadCloser := mkReader "Hel" (Some (errorString "read: input/output error")).

(** An object key with a line feed in it, which no URL can hold. *)
Definition badKey : string := "k" +:+ newline.

(** What [url.Parse] says of the URL of that key. *)
Definition badKeyError : error :=
  Lab.urlError ("http://127.0.0.1:3000/api/b/k" +:+ newline)
               (errorString "net/url: invalid control character in URL").


End Scenes.

(* ===================================================================== *)
(** * The library functions on a few texts *)
(* ===================================================================== *)

(** A string literal is the UTF-8 bytes of its text. *)
Example label_bytes :
  String.length previewLabel = 13%nat /\ String.length thumbnailLabel = 16%nat.
Proof. split; reflexivity. Qed.

Example Fields_ascii : strings.Fields "  a b  c " = ["a"; "b"; "c"].
Proof. reflexivity. Qed.

(** U+3000 (ideographic space) separates fields like an ASCII space. *)
Example Fields_unicode :
  strings.Fields ("预览地址:" +:+ "　" +:+ "http://h/p" +:+ " " +:+ "x")
  = ["预览地址:"; "http://h/p"; "x"].
Proof. reflexivity. Qed.

Example Split_lines :
  strings.Split ("a" +:+ newline +:+ newline +:+ "b" +:+ newline) newline = ["a"; ""; "b"; ""].
Proof. reflexivity. Qed.

Example Split_long_separator : strings.Split "a--b---c" "--" = ["a"; "b"; "-c"].
Proof. reflexivity. Qed.

Example Trim_quotes : strings.Trim (quote +:+ "5d41" +:+ quote) quote = "5d41".
Proof. reflexivity. Qed.

Example TrimRight_slashes : strings.TrimRight "http://x//" "/" = "http://x".
Proof. reflexivity. Qed.

Example itoa_values : itoa (-12) = "-12" /\ itoa 0 = "0" /\ itoa 206 = "206".
Proof. repeat split; reflexivity. Qed.

Example Base_values :
  filepath.Base "http://h/a/b.txt" = "b.txt" /\ filepath.Base "///" = "/" /\
  filepath.Base "a/b//" = "b" /\ filepath.Base "abc" = "abc" /\ filepath.Base "" = ".".
Proof. repeat split; reflexivity. Qed.

Example canonical_keys :
  Header.CanonicalMIMEHeaderKey "X-API-Key" = "X-Api-Key" /\
  Header.CanonicalMIMEHeaderKey "ETag" = "Etag" /\
  Header.CanonicalMIMEHeaderKey "a b" = "a b".
Proof. repeat split; reflexivity. Qed.

Example QueryEscape_value : url.QueryEscape "photos/ a~" = "photos%2F+a~".
Proof. reflexivity. Qed.

Example fixdate_epoch :
  Lab.time_Parse TimeFormat "Thu, 01 Jan 1970 00:00:00 GMT" = (mkTime 62135596800 0, None).
Proof. reflexivity. Qed.

Example dates_refused :
  Lab.readRFC3339 "0001-01-01T00:00:00Z" = Some zeroTime /\
  Lab.readRFC3339 "2024-02-30T00:00:00Z" = None /\
  Lab.time_Parse TimeFormat "" = (zeroTime, Some (Lab.parseError TimeFormat "")).
Proof. repeat split; reflexivity. Qed.

Example listing_decoded :
  xml_Decode Lab.rt (Response.Body Lab.listing)
  = Ok (ListBucketResult.mk "b" "photos/"
          [ObjectInfo.mk "photos/a.jpg" "" "" zeroTime "" 12;
           ObjectInfo.mk "docs/c.txt" "" "" zeroTime "" 3]).
Proof. reflexivity. Qed.

(* ===================================================================== *)
(** * Facts about the string functions *)
(* ===================================================================== *)

Section StringFacts.

Import strings.

#[local] Arguments String.append : simpl nomatch.

Lemma append_nil_r (s : string) : s +:+ "" = s.
Proof. induction s as [|c s IH]; simpl; congruence. Qed.

Lemma append_assoc (a b c : string) : (a +:+ b) +:+ c = a +:+ b +:+ c.
Proof. induction a as [|x a IH]; simpl; congruence. Qed.

Lemma TrimRight_all (cutset s : string) :
  allIn cutset s = true -> TrimRight s cutset = "".
Proof.
  induction s as [|c s IH]; simpl; [reflexivity|].
  intros [Hc Hs]%andb_true_iff. now rewrite (IH Hs), Hc.
Qed.

Lemma TrimRight_app_cut (cutset s tail : string) :
  allIn cutset tail = true -> TrimRight (s +:+ tail) cutset = TrimRight s cutset.
Proof.
  intros Ht. induction s as [|c s IH]; simpl.
  - now apply TrimRight_all.
  - now rewrite IH.
Qed.

Lemma TrimRight_split (cutset s : string) :
  exists tail, s = TrimRight s cutset +:+ tail /\ allIn cutset tail = true.
Proof.
  induction s as [|c s (tail & Heq & Hall)]; simpl.
  - now exists "".
  - destruct (TrimRight s cutset) as [|d kept] eqn:E.
    + destruct (inCutset c cutset) eqn:Hc.
      * exists (String c s). split; [reflexivity|]. simpl in *. subst s.
        now rewrite Hc, Hall.
      * exists tail. simpl in *. now subst s.
    + exists tail. split; [|assumption]. simpl in *. congruence.
Qed.

Lemma TrimRight_last (cutset s : string) (c : ascii) :
  lastByte (TrimRight s cutset) = Some c -> inCutset c cutset = false.
Proof.
  unfold lastByte. induction s as [|d s IH]; simpl; [discriminate|].
  destruct (TrimRight s cutset) as [|e kept] eqn:E.
  - destruct (inCutset d cutset) eqn:Hd; simpl; [discriminate|]. now intros [= <-].
  - simpl in *. exact IH.
Qed.

Lemma HasPrefix_app (s x tail : string) :
  HasPrefix s x = true -> HasPrefix (s +:+ tail) x = true.
Proof.
  revert s. induction x as [|p x IH]; intros [|c s]; simpl; try easy.
  intros [Hc Hs]%andb_true_iff. now rewrite Hc, IH.
Qed.

Lemma Contains_app_r (s x tail : string) :
  Contains s x = true -> Contains (s +:+ tail) x = true.
Proof.
  induction s as [|c s IH]; simpl.
  - rewrite orb_false_r. destruct x; [|discriminate]. now destruct tail.
  - intros [H|H]%orb_true_iff.
    + change (String c (s +:+ tail)) with (String c s +:+ tail).
      now rewrite (HasPrefix_app _ _ _ H).
    + rewrite (IH H). apply orb_true_r.
Qed.

Lemma Contains_app_l (front s x : string) :
  Contains s x = true -> Contains (front +:+ s) x = true.
Proof.
  intros H. induction front as [|c front IH]; simpl; [assumption|].
  rewrite IH. apply orb_true_r.
Qed.

Lemma splitFrom_nonempty (sep : string) (skip : nat) (s : string) :
  splitFrom sep skip s <> [].
Proof.
  revert skip. induction s as [|c s IH]; intros skip; simpl; [discriminate|].
  destruct skip; [|apply IH].
  destruct (HasPrefix _ _); [discriminate|].
  destruct (splitFrom sep 0 s); discriminate.
Qed.

Lemma splitFrom_head (sep : string) (s cur : string) (more : list string) :
  splitFrom sep 0 s = cur :: more -> exists tail, s = cur +:+ tail.
Proof.
  revert cur more. induction s as [|c s IH]; intros cur more; simpl.
  - intros [= <- <-]. now exists "".
  - destruct (HasPrefix _ _).
    + intros [= <- _]. now exists (String c s).
    + destruct (splitFrom sep 0 s) as [|cur' more'] eqn:E.
      * now destruct (splitFrom_nonempty sep 0 s).
      * intros [= <- <-]. destruct (IH _ _ eq_refl) as [tail ->].
        now exists tail.
Qed.

(** Every piece of a split is a contiguous part of the text. *)
Lemma splitFrom_part (sep : string) (skip : nat) (s line : string) :
  In line (splitFrom sep skip s) -> exists front tail, s = front +:+ line +:+ tail.
Proof.
  revert skip line. induction s as [|c s IH]; intros skip line; simpl.
  - intros [<-|[]]. now exists "", "".
  - destruct skip as [|k].
    + destruct (HasPrefix _ _).
      * intros [<-|H]; [now exists "", (String c s)|].
        destruct (IH _ _ H) as (front & tail & ->). now exists (String c front), tail.
      * destruct (splitFrom sep 0 s) as [|cur more] eqn:E.
        { now destruct (splitFrom_nonempty sep 0 s). }
        intros [<-|H].
        -- destruct (splitFrom_head _ _ _ _ E) as [tail ->]. now exists "", tail.
        -- destruct (IH 0%nat line) as (front & tail & ->).
           { rewrite E. now right. }
           now exists (String c front), tail.
    + intros H. destruct (IH _ _ H) as (front & tail & ->).
      now exists (String c front), tail.
Qed.

Lemma Split_Contains (s sep line x : string) :
  In line (Split s sep) -> Contains line x = true -> sep <> "" ->
  Contains s x = true.
Proof.
  destruct sep as [|c sep]; [easy|]. unfold Split. intros Hin Hx _.
  destruct (splitFrom_part _ _ _ _ Hin) as (front & tail & ->).
  now apply Contains_app_l, Contains_app_r.
Qed.

End StringFacts.

(* ===================================================================== *)
(** * What each operation sends and how it reads the answer *)
(* ===================================================================== *)

Lemma log_unchanged {A} (l : list A) (x : A) : l = l ++ [x] -> False.
Proof.
  intros H. apply (f_equal (@length A)) in H. rewrite length_app in H. simpl in H. lia.
Qed.

Section Exchanges.

Context {Ext : Type} (rt : Runtime Ext).

Lemma NewRequest_ok ctx method url body req :
  NewRequestWithContext rt ctx method url body = Ok req ->
  req = Request.mk method url ∅ body ctx /\ ctx <> nilContext /\ url_Parse rt url = None.
Proof.
  unfold NewRequestWithContext.
  destruct ctx; [discriminate | |]; destruct (url_Parse rt url); try discriminate;
    now intros [= <-].
Qed.

(** Take the run of an operation apart, one call at a time. *)
Ltac open_run :=
  unfold run, MakeBucket, DeleteBucket, PutObject, GetObject, GetObjectRange,
    DeleteObject, HeadObject, ListObjects, bindM, retM, Do, NewWriter, ReadAll;
  repeat match goal with
    | |- context [match ?x with _ => _ end] =>
        lazymatch x with
        | context [match _ with _ => _ end] => fail
        | _ => destruct x eqn:?
        end
    end.

Ltac close_run :=
  intros; simplify_eq/=;
  repeat match goal with
    | H : ?l = ?l ++ [_] |- _ => destruct (log_unchanged _ _ H)
    | H : ?l ++ [_] = ?l ++ [_] |- _ => apply app_inv_head in H; simplify_eq
    | H : NewRequestWithContext _ _ _ _ _ = Ok _ |- _ =>
        apply NewRequest_ok in H; destruct H as (-> & ? & ?)
    | H : negb ?b = _, H' : ?b = _ |- _ => rewrite H' in H; simpl in H; try discriminate H
    | H : negb ?b = true |- _ => apply negb_true_iff in H
    | H : negb ?b = false |- _ => apply negb_false_iff in H
    end;
  try done; try congruence;
  repeat match goal with
    | H : ?x = (_, _) |- context [?x] => rewrite H
    end;
  try done; try (repeat split; congruence).

Lemma MakeBucket_exchange c ctx b w e w' h req out :
  MakeBucket rt c ctx b w = (e, w') ->
  log w' = log w ++ [Exchange h req out] ->
  h = httpClient c /\
  req = addAuth c (Request.mk MethodPost (bucketURL c b) ∅ NoBody ctx) /\
  e = verdict "failed to create bucket: " out.
Proof. unfold verdict. open_run; close_run. Qed.

Lemma DeleteBucket_exchange c ctx b w e w' h req out :
  DeleteBucket rt c ctx b w = (e, w') ->
  log w' = log w ++ [Exchange h req out] ->
  h = httpClient c /\
  req = addAuth c (Request.mk MethodDelete (bucketURL c b) ∅ NoBody ctx) /\
  e = verdict "failed to delete bucket: " out.
Proof. unfold verdict. open_run; close_run. Qed.

Lemma DeleteObject_exchange c ctx b k w e w' h req out :
  DeleteObject rt c ctx b k w = (e, w') ->
  log w' = log w ++ [Exchange h req out] ->
  h = httpClient c /\
  req = addAuth c (Request.mk MethodDelete (objectURL c b k) ∅ NoBody ctx) /\
  e = verdict "failed to delete object: " out.
Proof. unfold verdict. open_run; close_run. Qed.

Lemma GetObject_exchange c ctx b k w r w' h req out :
  GetObject rt c ctx b k w = (r, w') ->
  log w' = log w ++ [Exchange h req out] ->
  h = httpClient c /\
  req = Request.mk MethodGet (objectURL c b k) ∅ NoBody ctx /\
  r = match out with
      | Err err => Err (wrapError "failed to make request: " err)
      | Ok resp =>
          if negb (Response.StatusCode resp =? StatusOK)
          then Err (statusError "failed to get object: " (content (Response.Body resp))
                                (Response.StatusCode resp))
          else Ok (Response.Body resp)
      end.
Proof. open_run; close_run. Qed.


Lemma HeadObject_exchange c ctx b k w r w' h req out :
  HeadObject rt c ctx b k w = (r, w') ->
  log w' = log w ++ [Exchange h req out] ->
  h = httpClient c /\
  req = Request.mk MethodHead (objectURL c b k) ∅ NoBody ctx /\
  r = match out with
      | Err err => Err (wrapError "failed to make request: " err)
      | Ok resp =>
          if negb (Response.StatusCode resp =? StatusOK)
          then Err (statusError "failed to get object metadata: "
                                (content (Response.Body resp)) (Response.StatusCode resp))
          else Ok (metadataOf rt k resp)
      end.
Proof. unfold metadataOf. open_run; close_run. Qed.

Lemma ListObjects_exchange c ctx b prefix w r w' h req out :
  ListObjects rt c ctx b prefix w = (r, w') ->
  log w' = log w ++ [Exchange h req out] ->
  h = httpClient c /\
  req = Request.mk MethodGet (listURL c b prefix) ∅ NoBody ctx /\
  r = match out with
      | Err err => Err (wrapError "failed to make request: " err)
      | Ok resp =>
          if negb (Response.StatusCode resp =? StatusOK)
          then Err (statusError "failed to list objects: "
                                (content (Response.Body resp)) (Response.StatusCode resp))
          else match xml_Decode rt (Response.Body resp) with
               | Err err => Err (wrapError "failed to parse response: " err)
               | Ok doc => Ok (ListBucketResult.Contents doc)
               end
      end.
Proof. unfold listURL, bucketURL. open_run; close_run. Qed.

Lemma PutObject_exchange c ctx b k reader fn w r w' h req out :
  PutObject rt c ctx b k reader fn w = (r, w') ->
  log w' = log w ++ [Exchange h req out] ->
  h = httpClient c /\
  failure reader = None /\
  req = putRequest c ctx b k (content reader) fn (fst (randomBoundary rt (ext w))) /\
  r = match out with
      | Err err => Err (wrapError "failed to make request: " err)
      | Ok resp =>
          if negb (Response.StatusCode resp =? StatusOK)
          then Err (statusError "failed to upload object: "
                                (content (Response.Body resp)) (Response.StatusCode resp))
          else match failure (Response.Body resp) with
               | Some err => Err (wrapError "failed to read response: " err)
               | None => Ok (uploadOf k resp)
               end
      end.
Proof. unfold uploadOf, putRequest. open_run; close_run. Qed.

(** An operation leaves the log alone or adds one exchange to it. *)
Lemma PutObject_log c ctx b k reader fn w r w' :
  PutObject rt c ctx b k reader fn w = (r, w') ->
  log w' = log w \/ exists req out, log w' = log w ++ [Exchange (httpClient c) req out].
Proof. open_run; intros; simplify_eq/=; eauto. Qed.

End Exchanges.

(* ===================================================================== *)
(** * The statements of the specification *)
(* ===================================================================== *)

Section Claims.

Context {Ext : Type} (rt : Runtime Ext).


(** C8: NewClient keeps the configured base URL without its trailing
    ['/'] bytes: what it keeps does not end in ['/'] and the configured
    text is what it keeps followed by ['/'] bytes only.  So a client made
    from [b] followed by ["/"] and a client made from [b] give the same
    GetObjectURL, which is the kept base, ["/api/"], the bucket, ["/"] and
    the key. *)
Theorem C8_trailing_slash_stripped (b api : string) hc timeout (bucket key : string) :
  let withSlash := NewClient rt (ClientOptions.mk (b +:+ "/") api hc timeout) in
  let without := NewClient rt (ClientOptions.mk b api hc timeout) in
  GetObjectURL withSlash bucket key = GetObjectURL without bucket key /\
  GetObjectURL without bucket key
    = baseURL without +:+ "/api/" +:+ bucket +:+ "/" +:+ key /\
  (exists slashes, b = baseURL without +:+ slashes /\ allIn "/" slashes = true) /\
  (forall ch, lastByte (baseURL without) = Some ch -> ch <> "/"%char) /\
  baseURL withSlash = baseURL without.
Proof.
  simpl. unfold GetObjectURL; simpl.
  assert (Hsame : strings.TrimRight (b +:+ "/") "/" = strings.TrimRight b "/")
    by now apply TrimRight_app_cut.
  rewrite Hsame. repeat split.
  - apply TrimRight_split.
  - intros ch Hlast ->. now apply TrimRight_last in Hlast.
Qed.

(** *** Uploads *)

Lemma PutObject_success c ctx b k reader fn w r w' :
  PutObject rt c ctx b k reader fn w = (Ok r, w') ->
  exists req resp,
    log w' = log w ++ [Exchange (httpClient c) req (Ok resp)] /\
    Response.StatusCode resp = StatusOK /\
    failure (Response.Body resp) = None /\
    r = uploadOf k resp.
Proof.
  unfold uploadOf.
  unfold PutObject, bindM, retM, Do, NewWriter, ReadAll.
  destruct (randomBoundary rt (ext w)) as [boundary e1].
  destruct (failure reader); [discriminate|].
  destruct (NewRequestWithContext _ _ _ _ _); [|discriminate].
  destruct (Transport _ _ _) as [[resp|err] e2]; [|discriminate].
  destruct (negb (Response.StatusCode resp =? StatusOK)) eqn:Hs; [discriminate|].
  apply negb_false_iff, Z.eqb_eq in Hs.
  destruct (failure (Response.Body resp)) eqn:Hf; [discriminate|].
  intros [= <- <-]. simpl. eauto 10.
Qed.

Lemma scanLine_Key r line : UploadResult.Key (scanLine r line) = UploadResult.Key r.
Proof.
  unfold scanLine.
  repeat match goal with |- context [if ?b then _ else _] => destruct b end; reflexivity.
Qed.

Lemma scanLine_ETag r line : UploadResult.ETag (scanLine r line) = UploadResult.ETag r.
Proof.
  unfold scanLine.
  repeat match goal with |- context [if ?b then _ else _] => destruct b end; reflexivity.
Qed.

Lemma scan_Key_ETag lines r :
  UploadResult.Key (fold_left scanLine lines r) = UploadResult.Key r /\
  UploadResult.ETag (fold_left scanLine lines r) = UploadResult.ETag r.
Proof.
  revert r. induction lines as [|line lines IH]; intros r; simpl; [easy|].
  destruct (IH (scanLine r line)) as [-> ->].
  now rewrite scanLine_Key, scanLine_ETag.
Qed.

Lemma scanLine_PreviewURL r line :
  UploadResult.PreviewURL (scanLine r line)
  = if labelled previewLabel line
    then List.last (strings.Fields line) EmptyString
    else UploadResult.PreviewURL r.
Proof.
  unfold scanLine, labelled.
  destruct (strings.Contains line previewLabel), (strings.Contains line thumbnailLabel),
    (1 <? length (strings.Fields line))%nat; reflexivity.
Qed.

Lemma scanLine_ThumbnailURL r line :
  UploadResult.ThumbnailURL (scanLine r line)
  = if labelled thumbnailLabel line
    then List.last (strings.Fields line) EmptyString
    else UploadResult.ThumbnailURL r.
Proof.
  unfold scanLine, labelled.
  destruct (strings.Contains line previewLabel), (strings.Contains line thumbnailLabel),
    (1 <? length (strings.Fields line))%nat; reflexivity.
Qed.

(** A field that is overwritten at every labelled line ends with the
    value of the last labelled line. *)
Lemma scan_field (field : UploadResult.t -> string) (label : string) :
  (forall r line, field (scanLine r line)
                  = if labelled label line
                    then List.last (strings.Fields line) EmptyString else field r) ->
  forall lines r,
    field (fold_left scanLine lines r)
    = match last (List.filter (labelled label) lines) with
      | Some line => List.last (strings.Fields line) EmptyString
      | None => field r
      end.
Proof.
  intros Hstep. induction lines as [|line lines IH]; intros r; simpl; [reflexivity|].
  rewrite IH, Hstep. destruct (labelled label line); [|reflexivity].
  rewrite last_cons. now destruct (last (List.filter (labelled label) lines)).
Qed.

Lemma no_label_no_line (label body : string) :
  strings.Contains body label = false ->
  List.filter (labelled label) (strings.Split body newline) = [].
Proof.
  intros Hno.
  destruct (List.filter _ _) as [|line rest] eqn:E; [reflexivity|].
  assert (Hin : In line (List.filter (labelled label) (strings.Split body newline)))
    by (rewrite E; now left).
  apply filter_In in Hin as [Hin [Hc _]%andb_true_iff].
  rewrite (Split_Contains _ _ _ _ Hin Hc) in Hno; [discriminate|]. discriminate.
Qed.

(** C5: a PutObject call that succeeds went through one exchange whose
    response had status 200, and its result has the requested object key
    as Key and, as ETag, what [Header.Get] gives for ["ETag"] on that
    response (the first value of the header, unchanged; empty when the
    response has none). *)
Theorem C5_upload_key_and_etag c ctx b k reader fn w r w' :
  PutObject rt c ctx b k reader fn w = (Ok r, w') ->
  exists req resp,
    log w' = log w ++ [Exchange (httpClient c) req (Ok resp)] /\
    Response.StatusCode resp = StatusOK /\
    UploadResult.Key r = k /\
    UploadResult.ETag r = Header.Get (Response.Header resp) "ETag".
Proof.
  intros (req & resp & Hlog & Hstatus & _ & ->)%PutObject_success.
  exists req, resp. split; [assumption|]. split; [assumption|].
  unfold uploadOf. destruct (strings.Contains _ _); [|now split].
  apply scan_Key_ETag.
Qed.

(** C4, as the code has it: after a PutObject call that succeeds, when the body
    text contains the preview label, each of the two URL fields, on its
    own, is the last white-space separated token of the last line that
    contains its label and has at least two tokens, and is empty when no
    line is such; and a field is empty whenever its label does not occur
    in the body text. *)
Theorem C4_url_fields_from_labelled_lines c ctx b k reader fn w r w' :
  PutObject rt c ctx b k reader fn w = (Ok r, w') ->
  exists req resp,
    log w' = log w ++ [Exchange (httpClient c) req (Ok resp)] /\
    let body := content (Response.Body resp) in
    (strings.Contains body previewLabel = true ->
       UploadResult.PreviewURL r = extracted previewLabel body /\
       UploadResult.ThumbnailURL r = extracted thumbnailLabel body) /\
    (strings.Contains body previewLabel = false -> UploadResult.PreviewURL r = "") /\
    (strings.Contains body thumbnailLabel = false -> UploadResult.ThumbnailURL r = "").
Proof.
  intros (req & resp & Hlog & _ & _ & ->)%PutObject_success.
  exists req, resp. split; [assumption|]. cbv zeta. unfold uploadOf, extracted.
  destruct (strings.Contains (content (Response.Body resp)) previewLabel) eqn:Hp.
  - rewrite (scan_field UploadResult.PreviewURL previewLabel scanLine_PreviewURL).
    rewrite (scan_field UploadResult.ThumbnailURL thumbnailLabel scanLine_ThumbnailURL).
    cbn [UploadResult.PreviewURL UploadResult.ThumbnailURL].
    repeat split; try discriminate.
    intros Ht. now rewrite (no_label_no_line _ _ Ht).
  - cbn [UploadResult.PreviewURL UploadResult.ThumbnailURL].
    repeat split; discriminate.
Qed.

(** *** Metadata and listings *)

(** C6, as the code has it: after a HeadObject call that succeeds, Size is the
    ContentLength the transport reports for the response, whatever it
    is; so Size >= 0 holds exactly when that reported length is not
    negative. *)
Theorem C6_size_is_content_length c ctx b k w info w' :
  HeadObject rt c ctx b k w = (Ok info, w') ->
  exists req resp,
    log w' = log w ++ [Exchange (httpClient c) req (Ok resp)] /\
    Response.StatusCode resp = StatusOK /\
    ObjectInfo.Size info = Response.ContentLength resp /\
    (0 <= ObjectInfo.Size info <-> 0 <= Response.ContentLength resp).
Proof.
  unfold HeadObject, bindM, retM, Do.
  destruct (NewRequestWithContext _ _ _ _ _); [|discriminate].
  destruct (Transport _ _ _) as [[resp|err] e]; [|discriminate].
  destruct (negb (Response.StatusCode resp =? StatusOK)) eqn:Hs; [discriminate|].
  apply negb_false_iff, Z.eqb_eq in Hs.
  destruct (time_Parse _ _ _). intros [= <- <-]. simpl. eauto 10.
Qed.

(** C10: given that [time.Parse] returns the zero time with every error
    and refuses the empty text under [http.TimeFormat], a HeadObject call
    whose response has status 200 succeeds; its LastModified is the zero
    time when the Last-Modified header does not parse, and when the
    response has no such header. *)
Theorem C10_unparsed_date_is_zero_time c ctx b k w r w' h req resp :
  GoTimeParse rt ->
  HeadObject rt c ctx b k w = (r, w') ->
  log w' = log w ++ [Exchange h req (Ok resp)] ->
  Response.StatusCode resp = StatusOK ->
  exists info,
    r = Ok info /\
    (snd (time_Parse rt TimeFormat (Header.Get (Response.Header resp) "Last-Modified"))
       <> None ->
     ObjectInfo.LastModified info = zeroTime) /\
    (Header.lookup (Response.Header resp) "Last-Modified" = None ->
     ObjectInfo.LastModified info = zeroTime).
Proof.
  intros [Hzero Hempty] Hrun Hlog Hstatus.
  destruct (HeadObject_exchange _ _ _ _ _ _ _ _ _ _ _ Hrun Hlog) as (_ & _ & ->).
  rewrite Hstatus. simpl. eexists; split; [reflexivity|]. simpl.
  assert (Hbad : forall v, snd (time_Parse rt TimeFormat v) <> None ->
                           fst (time_Parse rt TimeFormat v) = zeroTime).
  { intros v Hv. destruct (time_Parse rt TimeFormat v) as [t [e|]] eqn:E; [|easy].
    now apply (Hzero _ _ _ _ E). }
  split; [apply Hbad|].
  intros Habsent. unfold Header.Get. rewrite Habsent. now apply Hbad.
Qed.

(** C3, as the code has it: a ListObjects call that succeeds returns the Contents
    of the document decoded from the response body, every entry and in
    that order; the client itself neither filters nor reorders.  The
    prefix only travels to the server, as the [prefix] query parameter,
    and only when it is not empty. *)
Theorem C3_listing_is_decoded_contents c ctx b prefix w objects w' :
  ListObjects rt c ctx b prefix w = (Ok objects, w') ->
  exists req resp doc,
    log w' = log w ++ [Exchange (httpClient c) req (Ok resp)] /\
    Response.StatusCode resp = StatusOK /\
    xml_Decode rt (Response.Body resp) = Ok doc /\
    objects = ListBucketResult.Contents doc /\
    Request.Method req = MethodGet /\
    Request.URL req
      = if String.eqb prefix ""
        then bucketURL c b
        else bucketURL c b +:+ "?prefix=" +:+ url.QueryEscape prefix.
Proof.
  unfold ListObjects, bindM, retM, Do.
  destruct (NewRequestWithContext _ _ _ _ _) as [req|] eqn:Hreq; [|discriminate].
  apply NewRequest_ok in Hreq as (-> & _ & _).
  destruct (Transport _ _ _) as [[resp|err] e]; [|discriminate].
  destruct (negb (Response.StatusCode resp =? StatusOK)) eqn:Hs; [discriminate|].
  apply negb_false_iff, Z.eqb_eq in Hs.
  destruct (xml_Decode rt (Response.Body resp)) as [doc|] eqn:Hdoc; [|discriminate].
  intros [= <- <-]. simpl. eexists _, resp, doc. repeat split; try assumption.
  unfold bucketURL. destruct (String.eqb prefix ""); simpl; [reflexivity|].
  unfold url.EncodeSingle. f_equal.
Qed.

(** *** Upload from a "file" *)

Lemma PutObject_sends c ctx b k reader fn w r w' :
  failure reader = None -> ctx <> nilContext -> url_Parse rt (objectURL c b k) = None ->
  PutObject rt c ctx b k reader fn w = (r, w') ->
  log w' <> log w.
Proof.
  intros Hread Hctx Hurl.
  unfold PutObject, bindM, retM, Do, NewWriter, ReadAll, NewRequestWithContext.
  fold (objectURL c b k). rewrite Hread, Hurl.
  destruct (randomBoundary rt (ext w)) as [boundary e1].
  destruct ctx; [easy| |];
    destruct (Transport _ _ _) as [[resp|err] e2]; simpl;
    repeat match goal with |- context [match ?x with _ => _ end] => destruct x end;
    intros [= _ <-] H; simpl in H; symmetry in H; now apply log_unchanged in H.
Qed.

(** C9: PutObjectFromFile opens no local file.  When [filePath] parses
    as a URL it first sends, through [http.DefaultClient] whatever
    transport the client was configured with, a HEAD request to
    [filePath]; when that exchange fails the call fails; when it gives a
    response, of any status, the call is PutObject on that response's body
    with the base name of [filePath] as the file name, so the one request
    that may follow goes through the client's own [http.Client] and
    carries that body as the content of the form file. *)
Theorem C9_put_from_file_sends_http_head c ctx b k filePath w r w' :
  PutObjectFromFile rt c ctx b k filePath w = (r, w') ->
  exists events,
    log w' = log w ++ events /\
    (forall path, ~ In (OpenFile path) events) /\
    match url_Parse rt filePath with
    | Some err => events = [] /\ r = Err (wrapError "failed to open file: " err)
    | None =>
        exists out e1 rest,
          Transport (DefaultClient rt) (headRequest filePath) (ext w) = (out, e1) /\
          events = Exchange (DefaultClient rt) (headRequest filePath) out :: rest /\
          match out with
          | Err err => rest = [] /\ r = Err (wrapError "failed to open file: " err)
          | Ok file =>
              PutObject rt c ctx b k (Response.Body file) (filepath.Base filePath)
                (mkWorld e1 (log w ++ [Exchange (DefaultClient rt) (headRequest filePath) out]))
                = (r, w') /\
              (rest = [] \/
               exists out2,
                 rest = [Exchange (httpClient c)
                           (putRequest c ctx b k (content (Response.Body file))
                              (filepath.Base filePath) (fst (randomBoundary rt e1)))
                           out2]) /\
              (failure (Response.Body file) = None -> ctx <> nilContext ->
               url_Parse rt (objectURL c b k) = None -> rest <> [])
          end
    end.
Proof.
  unfold PutObjectFromFile, bindM, Head, NewRequestWithContext.
  destruct (url_Parse rt filePath) as [err|] eqn:Hurl.
  - intros [= <- <-]. exists []. rewrite app_nil_r. now repeat split.
  - unfold Do. fold (headRequest filePath).
    destruct (Transport (DefaultClient rt) (headRequest filePath) (ext w))
      as [[file|err] e1] eqn:Hhead.
    + intros Hput.
      destruct (PutObject_log _ _ _ _ _ _ _ _ _ _ Hput) as [Hlog|(req & out2 & Hlog)];
        simpl in Hlog.
      * exists [Exchange (DefaultClient rt) (headRequest filePath) (Ok file)].
        split; [assumption|]. split; [intros path [H|[]]; discriminate|].
        exists (Ok file), e1, []. repeat split; auto.
        intros Hread Hctx Hobj.
        now destruct (PutObject_sends _ _ _ _ _ _ _ _ _ Hread Hctx Hobj Hput).
      * destruct (PutObject_exchange _ _ _ _ _ _ _ _ _ _ _ _ _ Hput Hlog)
          as (_ & _ & -> & _). simpl in *.
        exists [Exchange (DefaultClient rt) (headRequest filePath) (Ok file);
                Exchange (httpClient c)
                  (putRequest c ctx b k (content (Response.Body file))
                     (filepath.Base filePath) (fst (randomBoundary rt e1))) out2].
        split; [now rewrite Hlog, <- app_assoc|].
        split; [intros path [H|[H|[]]]; discriminate|].
        exists (Ok file), e1,
          [Exchange (httpClient c)
             (putRequest c ctx b k (content (Response.Body file))
                (filepath.Base filePath) (fst (randomBoundary rt e1))) out2].
        repeat split; eauto.
    + intros [= <- <-]. simpl.
      exists [Exchange (DefaultClient rt) (headRequest filePath) (Err err)].
      split; [reflexivity|]. split; [intros path [H|[]]; discriminate|].
      exists (Err err), e1, []. now repeat split.
Qed.

End Claims.

(* ===================================================================== *)
(** * The statements at work on concrete exchanges *)
(* ===================================================================== *)

Lemma Lab_time_Parse_contract : GoTimeParse Lab.rt.
Proof.
  split; [|vm_compute; discriminate].
  intros layout value t e. cbn. unfold Lab.time_Parse.
  destruct (String.eqb layout TimeFormat); [destruct (Lab.readFixdate value)|];
    now intros [= <- _].
Qed.


(** C5 at work: the upload of the example program. *)
Lemma C5_upload_key_and_etag_witness :
  exists req resp,
    log (snd (PutObject Lab.rt (Lab.client (Lab.answering Lab.uploaded) "sssss")
                        Background "b" "k" (mkReader "Hello" None) "hello.txt" Lab.start))
    = log Lab.start
      ++ [Exchange (httpClient (Lab.client (Lab.answering Lab.uploaded) "sssss")) req (Ok resp)] /\
    Response.StatusCode resp = StatusOK /\
    "k" = "k" /\
    "5d41402abc4b2a76" = Header.Get (Response.Header resp) "ETag".
Proof.
  refine (C5_upload_key_and_etag Lab.rt
            (Lab.client (Lab.answering Lab.uploaded) "sssss") Background "b" "k"
            (mkReader "Hello" None) "hello.txt" Lab.start
            (UploadResult.mk "k" "5d41402abc4b2a76"
               "http://127.0.0.1:3000/preview/k" "http://127.0.0.1:3000/thumb/k")
            _ _).
  vm_compute. reflexivity.
Defined.

(** C4 does not hold as worded: a thumbnail line in a body without the preview
    label leaves ThumbnailURL empty, and a preview line without white space
    leaves PreviewURL empty, though each line contains its label and has a
    last token. *)
Lemma C4_counterexample :
  ~ (forall r line,
       fst (PutObject Lab.rt (Lab.client (Lab.answering Lab.thumbnailOnly) "sssss")
                      Background "b" "k" (mkReader "Hello" None) "hello.txt" Lab.start)
         = Ok r ->
       In line (strings.Split (content (Response.Body Lab.thumbnailOnly)) newline) ->
       strings.Contains line thumbnailLabel = true ->
       UploadResult.ThumbnailURL r = List.last (strings.Fields line) "") /\
  ~ (forall r line,
       fst (PutObject Lab.rt (Lab.client (Lab.answering Lab.previewUnspaced) "sssss")
                      Background "b" "k" (mkReader "Hello" None) "hello.txt" Lab.start)
         = Ok r ->
       In line (strings.Split (content (Response.Body Lab.previewUnspaced)) newline) ->
       strings.Contains line previewLabel = true ->
       UploadResult.PreviewURL r = List.last (strings.Fields line) "").
Proof.
  split; intros H.
  - specialize (H (UploadResult.mk "k" "5d41402abc4b2a76" "" "")
                  "缩略图地址: http://127.0.0.1:3000/thumb/k").
    vm_compute in H. specialize (H eq_refl (or_introl eq_refl) eq_refl). discriminate H.
  - specialize (H (UploadResult.mk "k" "5d41402abc4b2a76" "" "")
                  "预览地址:http://127.0.0.1:3000/preview/k").
    vm_compute in H. specialize (H eq_refl (or_introl eq_refl) eq_refl). discriminate H.
Qed.

(** C4, as the code has it, at work: the response with both labelled lines. *)
Lemma C4_url_fields_from_labelled_lines_witness :
  strings.Contains (content (Response.Body Lab.uploaded)) previewLabel = true /\
  extracted previewLabel (content (Response.Body Lab.uploaded))
    = "http://127.0.0.1:3000/preview/k" /\
  extracted thumbnailLabel (content (Response.Body Lab.uploaded))
    = "http://127.0.0.1:3000/thumb/k" /\
  exists req resp,
    log (snd (PutObject Lab.rt (Lab.client (Lab.answering Lab.uploaded) "sssss")
                        Background "b" "k" (mkReader "Hello" None) "hello.txt" Lab.start))
    = log Lab.start
      ++ [Exchange (httpClient (Lab.client (Lab.answering Lab.uploaded) "sssss")) req (Ok resp)] /\
    (strings.Contains (content (Response.Body resp)) previewLabel = true ->
       "http://127.0.0.1:3000/preview/k" = extracted previewLabel (content (Response.Body resp)) /\
       "http://127.0.0.1:3000/thumb/k" = extracted thumbnailLabel (content (Response.Body resp))) /\
    (strings.Contains (content (Response.Body resp)) previewLabel = false ->
       "http://127.0.0.1:3000/preview/k" = "") /\
    (strings.Contains (content (Response.Body resp)) thumbnailLabel = false ->
       "http://127.0.0.1:3000/thumb/k" = "").
Proof.
  split; [vm_compute; reflexivity|]. split; [vm_compute; reflexivity|].
  split; [vm_compute; reflexivity|].
  refine (C4_url_fields_from_labelled_lines Lab.rt
            (Lab.client (Lab.answering Lab.uploaded) "sssss") Background "b" "k"
            (mkReader "Hello" None) "hello.txt" Lab.start
            (UploadResult.mk "k" "5d41402abc4b2a76"
               "http://127.0.0.1:3000/preview/k" "http://127.0.0.1:3000/thumb/k")
            _ _).
  vm_compute. reflexivity.
Defined.

(** C6 does not hold as worded: a HEAD response without a known length
    gives a negative Size. *)
Lemma C6_counterexample :
  ~ (forall info,
       fst (HeadObject Lab.rt (Lab.client (Lab.answering Lab.headNoLength) "") Background
                       "b" "k" Lab.start) = Ok info ->
       0 <= ObjectInfo.Size info).
Proof.
  intros H.
  specialize (H (ObjectInfo.mk "k" "" "text/plain" zeroTime "" (-1)) eq_refl).
  simpl in H. lia.
Qed.

(** C6, as the code has it, at work on the same response. *)
Lemma C6_size_is_content_length_witness :
  exists req resp,
    log (snd (HeadObject Lab.rt (Lab.client (Lab.answering Lab.headNoLength) "") Background
                         "b" "k" Lab.start))
    = log Lab.start
      ++ [Exchange (httpClient (Lab.client (Lab.answering Lab.headNoLength) "")) req (Ok resp)] /\
    Response.StatusCode resp = StatusOK /\
    -1 = Response.ContentLength resp /\
    (0 <= -1 <-> 0 <= Response.ContentLength resp).
Proof.
  refine (C6_size_is_content_length Lab.rt
            (Lab.client (Lab.answering Lab.headNoLength) "") Background "b" "k" Lab.start
            (ObjectInfo.mk "k" "" "text/plain" zeroTime "" (-1)) _ _).
  vm_compute. reflexivity.
Defined.

(** C10 at work: a Last-Modified header that is not a date. *)
Lemma C10_unparsed_date_is_zero_time_witness :
  GoTimeParse Lab.rt /\
  Header.Get (Response.Header Lab.headNoLength) "Last-Modified" = "yesterday" /\
  exists info,
    fst (HeadObject Lab.rt (Lab.client (Lab.answering Lab.headNoLength) "") Background
                    "b" "k" Lab.start) = Ok info /\
    ObjectInfo.LastModified info = zeroTime.
Proof.
  split; [exact Lab_time_Parse_contract|]. split; [reflexivity|].
  destruct (C10_unparsed_date_is_zero_time Lab.rt
              (Lab.client (Lab.answering Lab.headNoLength) "") Background "b" "k" Lab.start
              _ _
              (httpClient (Lab.client (Lab.answering Lab.headNoLength) ""))
              (Request.mk MethodHead "http://127.0.0.1:3000/api/b/k" ∅ NoBody Background)
              Lab.headNoLength
              Lab_time_Parse_contract (surjective_pairing _) eq_refl eq_refl)
    as (info & Hinfo & Hbad & _).
  exists info. split; [exact Hinfo|]. apply Hbad. vm_compute. discriminate.
Defined.

(** C3 does not hold as worded: the server answers a listing for the prefix
    ["photos/"] with an entry outside it, and the entry is returned. *)
Lemma C3_counterexample :
  ~ (forall objects,
       fst (ListObjects Lab.rt (Lab.client (Lab.answering Lab.listing) "") Background
                        "b" "photos/" Lab.start) = Ok objects ->
       Forall (fun o => strings.HasPrefix (ObjectInfo.Key o) "photos/" = true) objects).
Proof.
  intros H.
  specialize (H [ObjectInfo.mk "photos/a.jpg" "" "" zeroTime "" 12;
                 ObjectInfo.mk "docs/c.txt" "" "" zeroTime "" 3] eq_refl).
  apply Forall_cons_1 in H as [_ H]. apply Forall_cons_1 in H as [H _].
  discriminate H.
Qed.

(** C3, as the code has it, at work on the same exchange. *)
Lemma C3_listing_is_decoded_contents_witness :
  exists req resp doc,
    log (snd (ListObjects Lab.rt (Lab.client (Lab.answering Lab.listing) "") Background
                          "b" "photos/" Lab.start))
    = log Lab.start
      ++ [Exchange (httpClient (Lab.client (Lab.answering Lab.listing) "")) req (Ok resp)] /\
    Response.StatusCode resp = StatusOK /\
    xml_Decode Lab.rt (Response.Body resp) = Ok doc /\
    [ObjectInfo.mk "photos/a.jpg" "" "" zeroTime "" 12;
     ObjectInfo.mk "docs/c.txt" "" "" zeroTime "" 3] = ListBucketResult.Contents doc /\
    Request.Method req = MethodGet /\
    Request.URL req = "http://127.0.0.1:3000/api/b?prefix=photos%2F".
Proof.
  refine (C3_listing_is_decoded_contents Lab.rt
            (Lab.client (Lab.answering Lab.listing) "") Background "b" "photos/" Lab.start
            [ObjectInfo.mk "photos/a.jpg" "" "" zeroTime "" 12;
             ObjectInfo.mk "docs/c.txt" "" "" zeroTime "" 3] _ _).
  vm_compute. reflexivity.
Defined.

(** C9 at work: the "file" is a URL; the HEAD goes through the default
    client, the upload through the client's own, and no file is opened. *)
Lemma C9_put_from_file_sends_http_head_witness :
  exists events,
    log (snd (PutObjectFromFile (Lab.runtime (Lab.answering Lab.created))
                (Lab.client (Lab.answering Lab.uploaded) "sssss") Background
                "b" "k" "http://files.example/dir/report.pdf" Lab.start))
    = log Lab.start ++ events /\
    (forall path, ~ In (OpenFile path) events) /\
    length events = 2%nat /\
    filepath.Base "http://files.example/dir/report.pdf" = "report.pdf".
Proof.
  destruct (C9_put_from_file_sends_http_head (Lab.runtime (Lab.answering Lab.created))
              (Lab.client (Lab.answering Lab.uploaded) "sssss") Background
              "b" "k" "http://files.example/dir/report.pdf" Lab.start _ _
              (surjective_pairing _))
    as (events & Hlog & Hnofile & Hshape).
  exists events. split; [exact Hlog|]. split; [exact Hnofile|]. split; [|reflexivity].
  assert (Hlen : length (log (snd (PutObjectFromFile (Lab.runtime (Lab.answering Lab.created))
                (Lab.client (Lab.answering Lab.uploaded) "sssss") Background
                "b" "k" "http://files.example/dir/report.pdf" Lab.start))) = 2%nat)
    by (vm_compute; reflexivity).
  rewrite Hlog, length_app in Hlen. exact Hlen.
Defined.

(* ===================================================================== *)
(** * Further facts about the client *)
(* ===================================================================== *)

Section Further.

Context {Ext : Type} (rt : Runtime Ext).

#[local] Arguments String.eqb : simpl never.

Lemma world_eta (w : World Ext) : mkWorld (ext w) (log w) = w.
Proof. now destruct w. Qed.

Lemma NewRequest_buildError ctx method target body :
  NewRequestWithContext rt ctx method target body
  = match buildError rt ctx target with
    | Some err => Err err
    | None => Ok (Request.mk method target ∅ body ctx)
    end.
Proof.
  unfold NewRequestWithContext, buildError.
  destruct ctx; [reflexivity| |]; now destruct (url_Parse rt target).
Qed.

Lemma accepted_one (status : Z) :
  existsb (Z.eqb status) [StatusOK] = (status =? StatusOK).
Proof. simpl. apply orb_false_r. Qed.

Lemma accepted_two (status : Z) :
  negb (existsb (Z.eqb status) [StatusOK; StatusPartialContent])
  = negb (status =? StatusOK) && negb (status =? StatusPartialContent).
Proof. simpl. rewrite orb_false_r. apply negb_orb. Qed.

(** The code of the eight operations and the three stages agree. *)
Lemma run_pipeline c ctx op w : run rt c ctx op w = pipeline rt c ctx op w.
Proof.
  unfold pipeline, interpret.
  destruct op; simpl;
    unfold MakeBucket, DeleteBucket, PutObject, GetObject, GetObjectRange, DeleteObject,
      HeadObject, ListObjects, bindM, retM, Do, NewWriter, ReadAll, putRequest,
      listURL, bucketURL, objectURL, Request.withHeader, metadataOf, uploadOf;
    rewrite ?NewRequest_buildError.
  all: repeat match goal with
         | |- context [randomBoundary ?r ?e] =>
             destruct (randomBoundary r e) as [boundary outside]; simpl
         | |- context [match failure ?r with _ => _ end] => destruct (failure r); simpl
         | |- context [NewRequestWithContext _ _ _ _ _] => rewrite NewRequest_buildError
         | |- context [String.eqb ?a ?b] => destruct (String.eqb a b); simpl
         | |- context [(0 <? ?a) || (0 <? ?b)] => destruct ((0 <? a) || (0 <? b)); simpl
         | |- context [buildError ?r ?x ?u] => destruct (buildError r x u); simpl
         | |- context [Transport ?h ?r ?e] =>
             destruct (Transport h r e) as [[resp|err] outside']; simpl
         | |- context [Response.StatusCode ?r =? ?k] =>
             destruct (Response.StatusCode r =? k); simpl
         | |- context [time_Parse ?r ?l ?v] => destruct (time_Parse r l v); simpl
         | |- context [xml_Decode ?r ?b] => destruct (xml_Decode r b); simpl
         end.
  all: rewrite ?world_eta; reflexivity.
Qed.

Lemma run_cases c ctx op w res w' :
  run rt c ctx op w = (res, w') ->
  (exists err, unread op = Some err /\
     res = Err (wrapError "failed to copy file data: " err) /\
     w' = mkWorld (outsideAtSend rt op w) (log w)) \/
  (exists err, unread op = None /\ buildError rt ctx (requestURL c op) = Some err /\
     res = Err (wrapError "failed to create request: " err) /\
     w' = mkWorld (outsideAtSend rt op w) (log w)) \/
  (exists out outside',
     unread op = None /\ buildError rt ctx (requestURL c op) = None /\
     Transport (httpClient c) (request rt c ctx op w) (outsideAtSend rt op w)
       = (out, outside') /\
     res = interpret rt op out /\
     w' = mkWorld outside' (log w ++ [Exchange (httpClient c) (request rt c ctx op w) out])).
Proof.
  rewrite run_pipeline. unfold pipeline. fold (outsideAtSend rt op w).
  destruct (unread op) as [err|].
  { intros [= <- <-]. left. eauto. }
  destruct (buildError rt ctx (requestURL c op)) as [err|].
  { intros [= <- <-]. right. left. eauto 10. }
  destruct (Transport _ _ _) as [out outside'] eqn:Hsend.
  intros [= <- <-]. right. right. eauto 10.
Qed.

(** With the exchange in the log, the third case is the one. *)
Lemma run_exchanged c ctx op w res w' h req out :
  run rt c ctx op w = (res, w') ->
  log w' = log w ++ [Exchange h req out] ->
  h = httpClient c /\ req = request rt c ctx op w /\ res = interpret rt op out /\
  unread op = None /\ buildError rt ctx (requestURL c op) = None.
Proof.
  intros Hrun Hlog.
  destruct (run_cases _ _ _ _ _ _ Hrun)
    as [(err & _ & _ & ->)|[(err & _ & _ & _ & ->)|(o & e & Hr & Hb & _ & -> & ->)]];
    simpl in Hlog.
  - now destruct (log_unchanged _ _ Hlog).
  - now destruct (log_unchanged _ _ Hlog).
  - apply app_inv_head in Hlog. now simplify_eq.
Qed.

Lemma addAuth_line (c : Client Ext) (req : Request.t) :
  Request.Method (addAuth c req) = Request.Method req /\
  Request.URL (addAuth c req) = Request.URL req /\
  Request.Body (addAuth c req) = Request.Body req /\
  Request.Ctx (addAuth c req) = Request.Ctx req.
Proof. unfold addAuth. now destruct (negb (String.eqb (apiKey c) "")). Qed.




Lemma addAuth_headers (c : Client Ext) (base : Request.t) :
  Header.lookup (Request.Header base) "Authorization" = None ->
  Header.lookup (Request.Header base) "X-API-Key" = None ->
  (apiKey c <> "" ->
     Header.lookup (Request.Header (addAuth c base)) "Authorization"
       = Some ["Bearer " +:+ apiKey c] /\
     Header.lookup (Request.Header (addAuth c base)) "X-API-Key" = Some [apiKey c]) /\
  (apiKey c = "" ->
     Header.lookup (Request.Header (addAuth c base)) "Authorization" = None /\
     Header.lookup (Request.Header (addAuth c base)) "X-API-Key" = None).
Proof.
  intros Hauth Hkey. unfold addAuth.
  destruct (String.eqb (apiKey c) "") eqn:Hk; simpl.
  - apply String.eqb_eq in Hk. split; [intros Hne; now destruct Hne|]. now intros _.
  - apply String.eqb_neq in Hk. split; [intros _|intros He; now destruct Hk].
    unfold Header.lookup, Header.Set_. split.
    + rewrite lookup_insert_ne by (vm_compute; discriminate). apply lookup_insert_eq.
    + apply lookup_insert_eq.
Qed.

(** C7: MakeBucket, DeleteBucket, PutObject and DeleteObject, when their
    request can be built (and, for the upload, the reader was drained
    without error), send exactly one request, and that request carries,
    when the client's API key is not empty, an Authorization header with
    the one value "Bearer " followed by the key and an X-API-Key header
    with the one value the key; when the key is empty it carries neither
    header. *)
Theorem C7_auth_headers c ctx op w :
  authenticated op = true ->
  unread op = None ->
  buildError rt ctx (requestURL c op) = None ->
  exists req out outside',
    run rt c ctx op w
    = (interpret rt op out, mkWorld outside' (log w ++ [Exchange (httpClient c) req out])) /\
    (apiKey c <> "" ->
       Header.lookup (Request.Header req) "Authorization" = Some ["Bearer " +:+ apiKey c] /\
       Header.lookup (Request.Header req) "X-API-Key" = Some [apiKey c]) /\
    (apiKey c = "" ->
       Header.lookup (Request.Header req) "Authorization" = None /\
       Header.lookup (Request.Header req) "X-API-Key" = None).
Proof.
  intros Hop Hread Hbuild.
  rewrite run_pipeline. unfold pipeline. fold (outsideAtSend rt op w).
  rewrite Hread, Hbuild.
  destruct (Transport (httpClient c) (request rt c ctx op w) (outsideAtSend rt op w))
    as [out outside'].
  exists (request rt c ctx op w), out, outside'. split; [reflexivity|].
  destruct op; try discriminate Hop; simpl; unfold putRequest; now apply addAuth_headers.
Qed.

(** X1: each of the eight operations is the three stages in a row.  An
    upload first draws its boundary and drains its reader, whose failure
    ends the call; then the request is built, and a failure to build it
    ends the call with nothing sent; then there is one exchange through the
    client's [http.Client]; and the result is read off the operation and
    the outcome of that exchange alone. *)
Theorem operations_are_build_exchange_interpret c ctx op w :
  run rt c ctx op w = pipeline rt c ctx op w.
Proof. apply run_pipeline. Qed.

(** X2: when the request cannot be built (a nil context, or a URL text
    that does not parse) and, for an upload, the reader was drained
    without error, the operation fails with "failed to create request: "
    around the cause and sends nothing. *)
Theorem build_failure_sends_nothing c ctx op w cause :
  unread op = None ->
  buildError rt ctx (requestURL c op) = Some cause ->
  fst (run rt c ctx op w) = Err (wrapError "failed to create request: " cause) /\
  log (snd (run rt c ctx op w)) = log w.
Proof.
  intros Hread Hbuild. rewrite run_pipeline. unfold pipeline.
  now rewrite Hread, Hbuild.
Qed.


(** X4: an operation adds nothing to the log or exactly one exchange, made
    through the client's own [http.Client] (it never retries and opens no
    file); when it adds nothing, it returns an error. *)
Theorem at_most_one_exchange c ctx op w res w' :
  run rt c ctx op w = (res, w') ->
  exists events,
    log w' = log w ++ events /\
    (length events <= 1)%nat /\
    (forall ev, In ev events -> exists req out, ev = Exchange (httpClient c) req out) /\
    (events = [] -> exists e, res = Err e).
Proof.
  intros Hrun.
  destruct (run_cases _ _ _ _ _ _ Hrun)
    as [(err & _ & -> & ->)|[(err & _ & _ & -> & ->)|(o & e & _ & _ & _ & -> & ->)]].
  - exists []. simpl. rewrite app_nil_r. repeat split; eauto; easy.
  - exists []. simpl. rewrite app_nil_r. repeat split; eauto; easy.
  - eexists [_]. simpl. repeat split; eauto; try easy.
    intros ev [<-|[]]. eauto.
Qed.

(** X5: a result is never made up: when an operation succeeds, the log has
    grown by one exchange that gave a response whose status the operation
    accepts. *)
Theorem success_has_an_accepted_response c ctx op w s w' :
  run rt c ctx op w = (Ok s, w') ->
  exists req resp,
    log w' = log w ++ [Exchange (httpClient c) req (Ok resp)] /\
    In (Response.StatusCode resp) (accepted op).
Proof.
  intros Hrun.
  destruct (run_cases _ _ _ _ _ _ Hrun)
    as [(err & _ & [=] & _)|[(err & _ & _ & [=] & _)|(o & e & _ & _ & _ & Hres & ->)]].
  destruct o as [resp|err]; [|discriminate]. simpl in *.
  destruct (existsb _ _) eqn:Hacc; [|discriminate].
  exists (request rt c ctx op w), resp. split; [reflexivity|].
  apply existsb_exists in Hacc as (x & Hin & ->%Z.eqb_eq). exact Hin.
Qed.


(** X7: the four operations that do not call [addAuth] (GetObject,
    GetObjectRange, HeadObject, ListObjects) send neither an Authorization
    nor an X-API-Key header, whatever API key the client holds. *)
Theorem reads_send_no_credentials c ctx op w res w' h req out :
  authenticated op = false ->
  run rt c ctx op w = (res, w') ->
  log w' = log w ++ [Exchange h req out] ->
  Header.lookup (Request.Header req) "Authorization" = None /\
  Header.lookup (Request.Header req) "X-API-Key" = None.
Proof.
  intros Hop Hrun Hlog.
  destruct (run_exchanged _ _ _ _ _ _ _ _ _ Hrun Hlog) as (_ & -> & _).
  destruct op; try discriminate Hop; simpl; try (now split).
  destruct ((0 <? start) || (0 <? end_)); [|now split].
  unfold Header.lookup, Header.Set_. split; now rewrite lookup_insert_ne.
Qed.


(** *** Reads *)

(** X9: a response with status 206 divides the two reads: answered with
    206, GetObject fails with the status error while GetObjectRange with
    start 0 and end 0, which sends the same request, returns the body. *)
Theorem partial_content_divides_the_reads c ctx b k w resp outside' :
  buildError rt ctx (objectURL c b k) = None ->
  Transport (httpClient c) (Request.mk MethodGet (objectURL c b k) ∅ NoBody ctx) (ext w)
    = (Ok resp, outside') ->
  Response.StatusCode resp = StatusPartialContent ->
  fst (GetObject rt c ctx b k w)
    = Err (statusError "failed to get object: " (content (Response.Body resp))
                       StatusPartialContent) /\
  fst (GetObjectRange rt c ctx b k 0 0 w) = Ok (Response.Body resp).
Proof.
  intros Hbuild Hsend Hstatus.
  unfold GetObject, GetObjectRange, bindM, retM, Do.
  fold (objectURL c b k). rewrite !NewRequest_buildError, Hbuild. simpl.
  rewrite Hsend, Hstatus. now split.
Qed.

(** X10: a read whose request can be built and is answered with a status
    it accepts returns, as its stream, the body of that very response: the
    reader the transport gave, whatever it holds and however it ends. *)
Theorem stream_is_the_response_body c ctx op w resp outside' :
  streams op = true ->
  buildError rt ctx (requestURL c op) = None ->
  Transport (httpClient c) (request rt c ctx op w) (ext w) = (Ok resp, outside') ->
  In (Response.StatusCode resp) (accepted op) ->
  fst (run rt c ctx op w) = Ok (Stream (Response.Body resp)).
Proof.
  intros Hop Hbuild Hsend Hstatus.
  rewrite run_pipeline. unfold pipeline.
  assert (Hacc : existsb (Z.eqb (Response.StatusCode resp)) (accepted op) = true)
    by (apply existsb_exists; eexists; split; [exact Hstatus|apply Z.eqb_refl]).
  destruct op; try discriminate Hop; simpl in *; rewrite Hbuild, Hsend; simpl;
    now rewrite Hacc.
Qed.

(** *** Uploads *)

(** X11: an upload whose reader fails stops there: it returns "failed to
    copy file data: " around the read error and sends nothing, whatever the
    context and the URL are; only the boundary has been drawn. *)
Theorem upload_stops_at_unreadable_payload c ctx b k reader fn w cause :
  failure reader = Some cause ->
  PutObject rt c ctx b k reader fn w
  = (Err (wrapError "failed to copy file data: " cause),
     mkWorld (snd (randomBoundary rt (ext w))) (log w)).
Proof.
  intros Hread. unfold PutObject, bindM, retM, NewWriter, ReadAll.
  destruct (randomBoundary rt (ext w)). now rewrite Hread.
Qed.

(** X12: an upload the server accepted with status 200 still fails, with
    "failed to read response: " around the read error, when the body of
    that response cannot be read to its end. *)
Theorem upload_fails_on_unread_response c ctx b k reader fn w r w' h req resp cause :
  PutObject rt c ctx b k reader fn w = (r, w') ->
  log w' = log w ++ [Exchange h req (Ok resp)] ->
  Response.StatusCode resp = StatusOK ->
  failure (Response.Body resp) = Some cause ->
  r = Err (wrapError "failed to read response: " cause).
Proof.
  intros Hrun Hlog Hstatus Hread.
  destruct (PutObject_exchange _ _ _ _ _ _ _ _ _ _ _ _ _ Hrun Hlog) as (_ & _ & _ & ->).
  now rewrite Hstatus, Hread.
Qed.

Lemma addAuth_keeps_content_type (c : Client Ext) (req : Request.t) :
  Header.lookup (Request.Header (addAuth c req)) "Content-Type"
  = Header.lookup (Request.Header req) "Content-Type".
Proof.
  unfold addAuth. destruct (negb (String.eqb (apiKey c) "")); [|reflexivity].
  simpl. unfold Header.lookup, Header.Set_. now rewrite !lookup_insert_ne.
Qed.

(** X13: the request of an upload is a multipart form of exactly one file
    part, in the field "file", with the given file name and all the bytes
    of the reader, and its Content-Type header names the very boundary the
    form was written with. *)
Theorem upload_request_is_one_file_form c ctx b k reader fn w r w' h req out :
  PutObject rt c ctx b k reader fn w = (r, w') ->
  log w' = log w ++ [Exchange h req out] ->
  exists boundary,
    boundary = fst (randomBoundary rt (ext w)) /\
    Request.Body req = MultipartBuffer boundary [mkFormFile "file" fn (content reader)] /\
    Header.lookup (Request.Header req) "Content-Type"
      = Some [FormDataContentType boundary] /\
    failure reader = None.
Proof.
  intros Hrun Hlog.
  destruct (PutObject_exchange _ _ _ _ _ _ _ _ _ _ _ _ _ Hrun Hlog) as (_ & Hread & -> & _).
  eexists; split; [reflexivity|]. unfold putRequest.
  rewrite addAuth_keeps_content_type.
  repeat split; [|exact Hread]. apply addAuth_line.
Qed.

(** X14: when the body text of the upload response does not contain the
    preview label, the line scan is skipped as a whole: both PreviewURL and
    ThumbnailURL stay empty, whatever else the body holds. *)
Theorem no_preview_label_no_urls c ctx b k reader fn w r w' :
  PutObject rt c ctx b k reader fn w = (Ok r, w') ->
  exists req resp,
    log w' = log w ++ [Exchange (httpClient c) req (Ok resp)] /\
    (strings.Contains (content (Response.Body resp)) previewLabel = false ->
     UploadResult.PreviewURL r = "" /\ UploadResult.ThumbnailURL r = "").
Proof.
  intros (req & resp & Hlog & _ & _ & ->)%PutObject_success.
  exists req, resp. split; [exact Hlog|]. intros Hno. unfold uploadOf.
  now rewrite Hno.
Qed.

(** *** Metadata and listings *)

Lemma TrimLeft_first (s cutset : string) (c : ascii) :
  firstByte (strings.TrimLeft s cutset) = Some c -> strings.inCutset c cutset = false.
Proof.
  induction s as [|d s IH]; simpl; [discriminate|].
  destruct (strings.inCutset d cutset) eqn:Hd; [exact IH|]. simpl. now intros [= <-].
Qed.

Lemma TrimRight_first (s cutset : string) (c : ascii) :
  firstByte (strings.TrimRight s cutset) = Some c -> firstByte s = Some c.
Proof.
  destruct s as [|d s]; simpl; [discriminate|].
  destruct (strings.TrimRight s cutset); [|easy].
  now destruct (strings.inCutset d cutset).
Qed.

Lemma Trim_ends (s cutset : string) (c : ascii) :
  firstByte (strings.Trim s cutset) = Some c \/ lastByte (strings.Trim s cutset) = Some c ->
  strings.inCutset c cutset = false.
Proof.
  unfold strings.Trim. intros [H|H].
  - apply TrimRight_first in H. now apply TrimLeft_first in H.
  - now apply TrimRight_last in H.
Qed.

(** X15: the ETag HeadObject returns is the ETag header with the double
    quotes at both ends taken off: it neither begins nor ends with a double
    quote, whatever the server sent. *)
Theorem metadata_etag_has_no_outer_quotes c ctx b k w info w' :
  HeadObject rt c ctx b k w = (Ok info, w') ->
  exists req resp,
    log w' = log w ++ [Exchange (httpClient c) req (Ok resp)] /\
    ObjectInfo.ETag info = strings.Trim (Header.Get (Response.Header resp) "ETag") quote /\
    firstByte (ObjectInfo.ETag info) <> Some (ascii_of_nat 34) /\
    lastByte (ObjectInfo.ETag info) <> Some (ascii_of_nat 34).
Proof.
  unfold HeadObject, bindM, retM, Do.
  destruct (NewRequestWithContext _ _ _ _ _); [|discriminate].
  destruct (Transport _ _ _) as [[resp|err] e]; [|discriminate].
  destruct (negb (Response.StatusCode resp =? StatusOK)); [discriminate|].
  destruct (time_Parse _ _ _). intros [= <- <-]. simpl.
  eexists _, resp. split; [reflexivity|]. split; [reflexivity|].
  split; intros H.
  - assert (Hc := Trim_ends _ quote _ (or_introl H)). discriminate Hc.
  - assert (Hc := Trim_ends _ quote _ (or_intror H)). discriminate Hc.
Qed.

(** X16: a listing answered with status 200 whose body does not decode
    fails with "failed to parse response: " around the decoder's error, an
    error of its own kind and not the status error. *)
Theorem listing_fails_on_undecodable_body c ctx b prefix w r w' h req resp cause :
  ListObjects rt c ctx b prefix w = (r, w') ->
  log w' = log w ++ [Exchange h req (Ok resp)] ->
  Response.StatusCode resp = StatusOK ->
  xml_Decode rt (Response.Body resp) = Err cause ->
  r = Err (wrapError "failed to parse response: " cause) /\
  r <> Err (statusError "failed to list objects: " (content (Response.Body resp))
                        (Response.StatusCode resp)).
Proof.
  intros Hrun Hlog Hstatus Hdecode.
  destruct (ListObjects_exchange _ _ _ _ _ _ _ _ _ _ _ Hrun Hlog) as (_ & _ & ->).
  rewrite Hstatus, Hdecode. simpl. split; [reflexivity|discriminate].
Qed.

(** *** Upload from a "file" *)

(** X17: the HEAD of PutObjectFromFile goes out under
    [context.Background], not under the caller's context: even with a nil
    context it is sent, and the call fails only afterwards, when the upload
    request cannot be built. *)
Theorem head_ignores_the_callers_context c b k filePath w file outside' :
  url_Parse rt filePath = None ->
  Transport (DefaultClient rt) (headRequest filePath) (ext w) = (Ok file, outside') ->
  failure (Response.Body file) = None ->
  PutObjectFromFile rt c nilContext b k filePath w
  = (Err (wrapError "failed to create request: " (errorString "net/http: nil Context")),
     mkWorld (snd (randomBoundary rt outside'))
             (log w ++ [Exchange (DefaultClient rt) (headRequest filePath) (Ok file)])).
Proof.
  intros Hurl Hhead Hread.
  unfold PutObjectFromFile, bindM, Head, Do, NewRequestWithContext.
  rewrite Hurl. fold (headRequest filePath). rewrite Hhead.
  unfold PutObject, bindM, retM, NewWriter, ReadAll. simpl.
  destruct (randomBoundary rt outside'). now rewrite Hread.
Qed.

(** *** The texts the client builds *)

Lemma QueryEscape_byte (c : ascii) (rest : string) :
  url.QueryEscape (String c rest)
  = url.QueryEscape (String c EmptyString) +:+ url.QueryEscape rest.
Proof.
  simpl. destruct (url.unreserved c); [reflexivity|].
  now destruct (N_of_ascii c =? 32)%N.
Qed.

Lemma QueryEscape_byte_safe (c : ascii) :
  allBytes queryByte (url.QueryEscape (String c EmptyString)) = true.
Proof. destruct c as [[] [] [] [] [] [] [] []]; reflexivity. Qed.

Lemma allBytes_app (p : ascii -> bool) (a b : string) :
  allBytes p (a +:+ b) = allBytes p a && allBytes p b.
Proof.
  induction a as [|c a IH]; [reflexivity|].
  change (String c a +:+ b) with (String c (a +:+ b)). simpl. now rewrite IH, andb_assoc.
Qed.

(** X18: ListObjects sends a non-empty prefix escaped: when the URL can be
    built, the one request goes to the bucket URL followed by "?prefix="
    and the escaped prefix, whose bytes are letters, digits, [-_.~], ['+']
    or ['%'] only, so no byte of the prefix can end the parameter or start
    another one. *)
Theorem listing_query_is_escaped c ctx b prefix w :
  prefix <> "" ->
  buildError rt ctx (bucketURL c b +:+ "?prefix=" +:+ url.QueryEscape prefix) = None ->
  (exists out,
     log (snd (ListObjects rt c ctx b prefix w))
     = log w
       ++ [Exchange (httpClient c)
             (Request.mk MethodGet
                (bucketURL c b +:+ "?prefix=" +:+ url.QueryEscape prefix) ∅ NoBody ctx)
             out]) /\
  allBytes queryByte (url.QueryEscape prefix) = true.
Proof.
  intros Hne Hbuild. split.
  - unfold ListObjects, bindM, retM, Do.
    apply String.eqb_neq in Hne. rewrite Hne. cbn [negb].
    replace ((baseURL c +:+ "/api/" +:+ b) +:+ "?" +:+ url.EncodeSingle "prefix" prefix)
      with (bucketURL c b +:+ "?prefix=" +:+ url.QueryEscape prefix)
      by (unfold url.EncodeSingle, bucketURL; f_equal).
    rewrite NewRequest_buildError, Hbuild.
    destruct (Transport _ _ _) as [[resp|err] outside']; [|eexists; reflexivity].
    destruct (negb (Response.StatusCode resp =? StatusOK)); [eexists; reflexivity|].
    destruct (xml_Decode rt (Response.Body resp)); eexists; reflexivity.
  - clear. induction prefix as [|ch prefix IH]; [reflexivity|].
    rewrite QueryEscape_byte, allBytes_app, QueryEscape_byte_safe. exact IH.
Qed.

Lemma QueryUnescape_byte (c : ascii) (rest : string) :
  QueryUnescape (url.QueryEscape (String c EmptyString) +:+ rest)
  = String c <$> QueryUnescape rest.
Proof. destruct c as [[] [] [] [] [] [] [] []]; reflexivity. Qed.

(** X19: escaping loses nothing: what [url.QueryUnescape] makes of the
    escaped prefix is the prefix, so two different prefixes are never sent
    as the same query. *)
Theorem escaped_prefix_decodes_to_the_prefix (prefix : string) :
  QueryUnescape (url.QueryEscape prefix) = Some prefix /\
  forall other, url.QueryEscape other = url.QueryEscape prefix -> other = prefix.
Proof.
  assert (Hround : forall s, QueryUnescape (url.QueryEscape s) = Some s).
  { induction s as [|ch s IH]; [reflexivity|].
    now rewrite QueryEscape_byte, QueryUnescape_byte, IH. }
  split; [apply Hround|].
  intros other Heq. apply (f_equal QueryUnescape) in Heq.
  rewrite !Hround in Heq. now injection Heq.
Qed.

(** X20: nothing of the bucket name or the object key is escaped, so the
    URL does not tell where the bucket ends: a bucket [a/b] with key [k]
    and a bucket [a] with key [b/k] have the same URL. *)
Theorem object_url_does_not_separate_bucket_and_key (c : Client Ext) (a b k : string) :
  GetObjectURL c (a +:+ "/" +:+ b) k = GetObjectURL c a (b +:+ "/" +:+ k).
Proof. unfold GetObjectURL. now rewrite !append_assoc. Qed.

(** *** The client value *)

Lemma TrimRight_idempotent (s cutset : string) :
  strings.TrimRight (strings.TrimRight s cutset) cutset = strings.TrimRight s cutset.
Proof.
  induction s as [|c s IH]; simpl; [reflexivity|].
  destruct (strings.TrimRight s cutset) as [|d kept] eqn:E.
  - destruct (strings.inCutset c cutset) eqn:Hc; simpl; [reflexivity|]. now rewrite Hc.
  - change (strings.TrimRight (String c (String d kept)) cutset)
      with (match strings.TrimRight (String d kept) cutset with
            | EmptyString => if strings.inCutset c cutset then EmptyString
                             else String c EmptyString
            | String _ _ as kept' => String c kept'
            end).
    now rewrite IH.
Qed.

(** X21: a client made from the base URL another client kept has the same
    base URL: taking off the trailing ['/'] bytes a second time changes
    nothing. *)
Theorem client_base_url_is_stable (o : ClientOptions.t Ext) api hc timeout :
  baseURL (NewClient rt (ClientOptions.mk (baseURL (NewClient rt o)) api hc timeout))
  = baseURL (NewClient rt o).
Proof. simpl. apply TrimRight_idempotent. Qed.

(** X22: a client given an [http.Client] uses it as it is and the Timeout
    option plays no part; a client given none gets one with the default
    transport and a timeout that is never zero: the option when it is not
    zero, thirty seconds otherwise. *)
Theorem client_http_client_and_timeout (o : ClientOptions.t Ext) :
  (forall h, ClientOptions.HTTPClient o = Some h -> httpClient (NewClient rt o) = h) /\
  (ClientOptions.HTTPClient o = None ->
     Transport (httpClient (NewClient rt o)) = DefaultTransport rt /\
     Timeout (httpClient (NewClient rt o)) <> 0 /\
     (ClientOptions.Timeout o <> 0 ->
        Timeout (httpClient (NewClient rt o)) = ClientOptions.Timeout o) /\
     (ClientOptions.Timeout o = 0 ->
        Timeout (httpClient (NewClient rt o)) = 30 * Second)).
Proof.
  unfold NewClient. split.
  - now intros h ->.
  - intros ->. simpl. destruct (ClientOptions.Timeout o =? 0) eqn:Hz.
    + apply Z.eqb_eq in Hz. repeat split; try easy; try congruence.
    + apply Z.eqb_neq in Hz. repeat split; try easy; try congruence.
Qed.

(** *** The file name of an upload from a "file" *)

Lemma lastElem_has_no_slash (s : string) :
  strings.Contains (filepath.lastElem s) "/" = false.
Proof.
  induction s as [|c s IH]; [reflexivity|]. simpl filepath.lastElem.
  destruct (strings.Contains s "/") eqn:Hs; [exact IH|].
  destruct (Ascii.eqb c "/") eqn:Hc; [exact Hs|].
  simpl. now rewrite Hc, Hs.
Qed.

(** X23: the file name PutObjectFromFile sends, [filepath.Base] of the
    path, is never empty, and contains no ['/'] unless it is ["/"]
    itself (the path was made of ['/'] bytes only). *)
Theorem base_name_is_one_element (path : string) :
  filepath.Base path <> "" /\
  (filepath.Base path = "/" \/ strings.Contains (filepath.Base path) "/" = false).
Proof.
  unfold filepath.Base. destruct path as [|c path]; [split; [easy|now right]|].
  destruct (filepath.lastElem (strings.TrimRight (String c path) "/")) eqn:E.
  - split; [easy|now left].
  - split; [easy|]. right. rewrite <- E. apply lastElem_has_no_slash.
Qed.

(** *** The lines of the upload response *)

Lemma HasPrefix_split (s pre : string) :
  strings.HasPrefix s pre = true -> exists rest, s = pre +:+ rest.
Proof.
  revert s. induction pre as [|p pre IH]; intros s; simpl.
  - intros _. now exists s.
  - destruct s as [|c s]; [discriminate|].
    intros [->%Ascii.eqb_eq [rest ->]%IH]%andb_true_iff. now exists rest.
Qed.

Lemma splitFrom_skip (sep skipped s : string) :
  strings.splitFrom sep (String.length skipped) (skipped +:+ s) = strings.splitFrom sep 0 s.
Proof.
  induction skipped as [|c skipped IH]; [reflexivity|].
  change (String c skipped +:+ s) with (String c (skipped +:+ s)). exact IH.
Qed.

Lemma Join_first_byte (c : ascii) (x : string) (rest : list string) (sep : string) :
  Join (String c x :: rest) sep = String c (Join (x :: rest) sep).
Proof. now destruct rest. Qed.

Lemma length_app_string (a b : string) :
  String.length (a +:+ b) = (String.length a + String.length b)%nat.
Proof.
  induction a as [|c a IH]; [reflexivity|].
  change (String c a +:+ b) with (String c (a +:+ b)). simpl. now rewrite IH.
Qed.

Lemma Join_splitFrom (sep : string) (n : nat) :
  sep <> "" ->
  forall s, (String.length s <= n)%nat -> Join (strings.splitFrom sep 0 s) sep = s.
Proof.
  intros Hsep. induction n as [|n IH]; intros s Hlen.
  - destruct s; [reflexivity|simpl in Hlen; lia].
  - destruct s as [|c s]; [reflexivity|]. simpl in Hlen.
    simpl strings.splitFrom.
    destruct (strings.HasPrefix (String c s) sep) eqn:Hpre.
    + destruct sep as [|c0 sep']; [now destruct Hsep|].
      destruct (HasPrefix_split _ _ Hpre) as [rest Heq].
      change (String c0 sep' +:+ rest) with (String c0 (sep' +:+ rest)) in Heq.
      injection Heq as -> ->.
      replace (String.length (String c0 sep') - 1)%nat with (String.length sep')
        by (simpl; lia).
      rewrite splitFrom_skip.
      pose proof (splitFrom_nonempty (String c0 sep') 0 rest) as Hne.
      destruct (strings.splitFrom (String c0 sep') 0 rest) as [|x more] eqn:E;
        [now destruct Hne|].
      change (Join (EmptyString :: x :: more) (String c0 sep'))
        with (EmptyString +:+ String c0 sep' +:+ Join (x :: more) (String c0 sep')).
      rewrite <- E, IH; [reflexivity|].
      rewrite length_app_string in Hlen. lia.
    + pose proof (splitFrom_nonempty sep 0 s) as Hne.
      destruct (strings.splitFrom sep 0 s) as [|x more] eqn:E; [now destruct Hne|].
      rewrite Join_first_byte, <- E, IH; [reflexivity|lia].
Qed.

(** X24: splitting loses nothing: the pieces [strings.Split] cuts a text
    into, joined again with the separator, are the text; so the lines the
    upload scan goes through are the response body, byte for byte. *)
Theorem split_then_join_is_the_text (s sep : string) :
  sep <> "" ->
  Join (strings.Split s sep) sep = s /\
  Join (strings.Split s newline) newline = s.
Proof.
  intros Hsep. split.
  - destruct sep as [|c sep]; [now destruct Hsep|].
    now apply (Join_splitFrom _ (String.length s)).
  - now apply (Join_splitFrom _ (String.length s)).
Qed.

(** *** The text of a status error *)

Lemma bytes_app (a b : string) :
  String.list_ascii_of_string (a +:+ b)
  = String.list_ascii_of_string a ++ String.list_ascii_of_string b.
Proof.
  induction a as [|c a IH]; [reflexivity|].
  change (String c a +:+ b) with (String c (a +:+ b)). simpl. now rewrite IH.
Qed.

Lemma bytes_inj (a b : string) :
  String.list_ascii_of_string a = String.list_ascii_of_string b -> a = b.
Proof.
  intros H. apply (f_equal String.string_of_list_ascii) in H.
  now rewrite !String.string_of_list_ascii_of_string in H.
Qed.

Lemma uint_bytes_numeric (d : Decimal.uint) :
  Forall (fun c => numericByte c = true)
         (String.list_ascii_of_string (NilEmpty.string_of_uint d)).
Proof. induction d; simpl; constructor; easy. Qed.

Lemma itoa_numeric (n : Z) :
  Forall (fun c => numericByte c = true) (String.list_ascii_of_string (itoa n)).
Proof.
  unfold itoa. destruct (Z.to_int n) as [d|d]; simpl.
  - destruct d; try apply uint_bytes_numeric. now repeat constructor.
  - constructor; [reflexivity|].
    destruct d; try apply uint_bytes_numeric. now repeat constructor.
Qed.

Lemma itoa_inj (a b : Z) : itoa a = itoa b -> a = b.
Proof.
  assert (Hback : forall n, option_map Z.of_int (NilZero.int_of_string (itoa n)) = Some n).
  { intros n. unfold itoa. rewrite NilZero.isi.
    - simpl. now rewrite DecimalZ.of_to.
    - destruct n; simpl; [discriminate| |discriminate].
      intros [= H]. now apply DecimalPos.Unsigned.to_uint_nonnil in H.
    - destruct n; simpl; [discriminate|discriminate|].
      intros [= H]. now apply DecimalPos.Unsigned.to_uint_nonnil in H. }
  intros H. apply (f_equal (fun s => option_map Z.of_int (NilZero.int_of_string s))) in H.
  rewrite !Hback in H. now injection H.
Qed.

Lemma numeric_run_ends_once (mark : ascii) (d1 d2 t1 t2 : list ascii) :
  numericByte mark = false ->
  Forall (fun c => numericByte c = true) d1 ->
  Forall (fun c => numericByte c = true) d2 ->
  d1 ++ mark :: t1 = d2 ++ mark :: t2 ->
  d1 = d2 /\ t1 = t2.
Proof.
  intros Hmark H1. revert d2. induction H1 as [|x d1 Hx _ IH]; intros d2 H2 Heq.
  - destruct H2 as [|y d2 Hy _]; simpl in Heq.
    + now injection Heq.
    + injection Heq as -> _. congruence.
  - destruct H2 as [|y d2 Hy H2]; simpl in Heq.
    + injection Heq as -> _. congruence.
    + injection Heq as -> Heq. destruct (IH _ H2 Heq) as [-> ->]. now split.
Qed.

(** X25: a status error tells its response apart: two status errors of the
    same operation are the same error only when the body texts are the same
    and the status codes are the same, so both can be read back from the
    message. *)
Theorem status_error_determines_body_and_status (what b1 b2 : string) (s1 s2 : Z) :
  statusError what b1 s1 = statusError what b2 s2 ->
  b1 = b2 /\ s1 = s2.
Proof.
  unfold statusError. intros [= H].
  apply (inj (String.append what)) in H.
  apply (f_equal String.list_ascii_of_string) in H.
  rewrite !bytes_app in H. apply (f_equal reverse) in H.
  rewrite !reverse_app in H. simpl in H. rewrite <- !app_assoc in H.
  change (reverse [")"%char]) with [")"%char] in H. simpl in H.
  injection H as H.
  apply numeric_run_ends_once in H as [Hnum Hrest];
    [|reflexivity|apply Forall_reverse, itoa_numeric..].
  apply (inj reverse), bytes_inj, itoa_inj in Hnum.
  split; [|exact Hnum].
  apply (f_equal (drop 9)) in Hrest. simpl in Hrest.
  now apply (inj reverse), bytes_inj in Hrest.
Qed.

End Further.

(* ===================================================================== *)
(** * The further facts at work on concrete exchanges *)
(* ===================================================================== *)


(** C7 at work: an object deleted by a client with the key of the example
    program, and a bucket made by a client without a key. *)
Lemma C7_auth_headers_witness :
  (exists req out outside',
     run Lab.rt (Lab.client (Lab.answering Lab.created) "sssss") Background
         (OpDeleteObject "b" "k") Lab.start
     = (interpret Lab.rt (OpDeleteObject "b" "k") out,
        mkWorld outside'
          (log Lab.start
           ++ [Exchange (httpClient (Lab.client (Lab.answering Lab.created) "sssss")) req out])) /\
     Header.lookup (Request.Header req) "Authorization" = Some ["Bearer sssss"] /\
     Header.lookup (Request.Header req) "X-API-Key" = Some ["sssss"]) /\
  (exists req out outside',
     run Lab.rt (Lab.client (Lab.answering Lab.created) "") Background
         (OpMakeBucket "b") Lab.start
     = (interpret Lab.rt (OpMakeBucket "b") out,
        mkWorld outside'
          (log Lab.start
           ++ [Exchange (httpClient (Lab.client (Lab.answering Lab.created) "")) req out])) /\
     Header.lookup (Request.Header req) "Authorization" = None /\
     Header.lookup (Request.Header req) "X-API-Key" = None).
Proof.
  split.
  - destruct (C7_auth_headers Lab.rt (Lab.client (Lab.answering Lab.created) "sssss")
                Background (OpDeleteObject "b" "k") Lab.start eq_refl eq_refl eq_refl)
      as (req & out & outside' & Hrun & Hkey & _).
    exists req, out, outside'. split; [exact Hrun|]. apply Hkey. discriminate.
  - destruct (C7_auth_headers Lab.rt (Lab.client (Lab.answering Lab.created) "")
                Background (OpMakeBucket "b") Lab.start eq_refl eq_refl eq_refl)
      as (req & out & outside' & Hrun & _ & Hnokey).
    exists req, out, outside'. split; [exact Hrun|]. now apply Hnokey.
Defined.

(** X2 at work: an object key that no URL can hold. *)
Lemma build_failure_sends_nothing_witness :
  unread (OpGetObject "b" Scenes.badKey) = None /\
  buildError Lab.rt Background
    (requestURL (Lab.client (Lab.answering Lab.created) "sssss") (OpGetObject "b" Scenes.badKey))
  = Some Scenes.badKeyError /\
  Error Scenes.badKeyError
  = "parse " +:+ quote +:+ "http://127.0.0.1:3000/api/b/k" +:+ backslash +:+ "n" +:+ quote
    +:+ ": net/url: invalid control character in URL" /\
  fst (run Lab.rt (Lab.client (Lab.answering Lab.created) "sssss") Background
           (OpGetObject "b" Scenes.badKey) Lab.start)
  = Err (wrapError "failed to create request: " Scenes.badKeyError) /\
  log (snd (run Lab.rt (Lab.client (Lab.answering Lab.created) "sssss") Background
                (OpGetObject "b" Scenes.badKey) Lab.start)) = log Lab.start.
Proof.
  split; [reflexivity|]. split; [reflexivity|]. split; [reflexivity|].
  exact (build_failure_sends_nothing Lab.rt
           (Lab.client (Lab.answering Lab.created) "sssss") Background
           (OpGetObject "b" Scenes.badKey) Lab.start _ eq_refl eq_refl).
Defined.


(** X4 at work: one upload, one exchange. *)
Lemma at_most_one_exchange_witness :
  exists events,
    log (snd (run Lab.rt (Lab.client (Lab.answering Lab.uploaded) "sssss") Background
                  (OpPutObject "b" "k" (mkReader "Hello" None) "hello.txt") Lab.start))
    = log Lab.start ++ events /\
    (length events <= 1)%nat /\
    (forall ev, In ev events ->
       exists req out,
         ev = Exchange (httpClient (Lab.client (Lab.answering Lab.uploaded) "sssss")) req out) /\
    (events = [] ->
     exists e,
       fst (run Lab.rt (Lab.client (Lab.answering Lab.uploaded) "sssss") Background
                (OpPutObject "b" "k" (mkReader "Hello" None) "hello.txt") Lab.start) = Err e).
Proof.
  exact (at_most_one_exchange Lab.rt (Lab.client (Lab.answering Lab.uploaded) "sssss")
           Background (OpPutObject "b" "k" (mkReader "Hello" None) "hello.txt") Lab.start
           _ _ (surjective_pairing _)).
Defined.

(** X5 at work: the listing of the example program. *)
Lemma success_has_an_accepted_response_witness :
  exists req resp,
    log (snd (run Lab.rt (Lab.client (Lab.answering Lab.listing) "") Background
                  (OpListObjects "b" "photos/") Lab.start))
    = log Lab.start
      ++ [Exchange (httpClient (Lab.client (Lab.answering Lab.listing) "")) req (Ok resp)] /\
    In (Response.StatusCode resp) (accepted (OpListObjects "b" "photos/")).
Proof.
  refine (success_has_an_accepted_response Lab.rt
            (Lab.client (Lab.answering Lab.listing) "") Background
            (OpListObjects "b" "photos/") Lab.start
            (Listing [ObjectInfo.mk "photos/a.jpg" "" "" zeroTime "" 12;
                      ObjectInfo.mk "docs/c.txt" "" "" zeroTime "" 3]) _ _).
  vm_compute. reflexivity.
Defined.


(** X7 at work: a client with an API key reads an object. *)
Lemma reads_send_no_credentials_witness :
  apiKey (Lab.client (Lab.answering Lab.created) "sssss") = "sssss" /\
  authenticated (OpGetObjectRange "b" "k" 0 5) = false /\
  log (snd (run Lab.rt (Lab.client (Lab.answering Lab.created) "sssss") Background
                (OpGetObjectRange "b" "k" 0 5) Lab.start))
  = log Lab.start
    ++ [Exchange (httpClient (Lab.client (Lab.answering Lab.created) "sssss"))
          (Request.mk MethodGet "http://127.0.0.1:3000/api/b/k"
                      (Header.Set_ ∅ "Range" "bytes=0-5") NoBody Background)
          (Ok Lab.created)] /\
  Header.lookup (Header.Set_ ∅ "Range" "bytes=0-5") "Authorization" = None /\
  Header.lookup (Header.Set_ ∅ "Range" "bytes=0-5") "X-API-Key" = None.
Proof.
  assert (Hlog :
    log (snd (run Lab.rt (Lab.client (Lab.answering Lab.created) "sssss") Background
                  (OpGetObjectRange "b" "k" 0 5) Lab.start))
    = log Lab.start
      ++ [Exchange (httpClient (Lab.client (Lab.answering Lab.created) "sssss"))
            (Request.mk MethodGet "http://127.0.0.1:3000/api/b/k"
                        (Header.Set_ ∅ "Range" "bytes=0-5") NoBody Background)
            (Ok Lab.created)]) by (vm_compute; reflexivity).
  split; [reflexivity|]. split; [reflexivity|]. split; [exact Hlog|].
  exact (reads_send_no_credentials Lab.rt (Lab.client (Lab.answering Lab.created) "sssss")
           Background (OpGetObjectRange "b" "k" 0 5) Lab.start _ _ _ _ _
           eq_refl (surjective_pairing _) Hlog).
Defined.


(** X9 at work: Partial Content for a read of the whole object. *)
Lemma partial_content_divides_the_reads_witness :
  fst (GetObject Lab.rt (Lab.client (Lab.answering Scenes.partial) "") Background
                 "b" "k" Lab.start)
  = Err (errorString "failed to get object: Hello, (status: 206)") /\
  fst (GetObjectRange Lab.rt (Lab.client (Lab.answering Scenes.partial) "") Background
                      "b" "k" 0 0 Lab.start)
  = Ok (mkReader "Hello," None).
Proof.
  exact (partial_content_divides_the_reads Lab.rt
           (Lab.client (Lab.answering Scenes.partial) "") Background "b" "k" Lab.start
           Scenes.partial 1%nat eq_refl eq_refl eq_refl).
Defined.

(** X10 at work: an object whose body breaks off is handed over as it is. *)
Lemma stream_is_the_response_body_witness :
  In (Response.StatusCode Scenes.brokenObject) (accepted (OpGetObject "b" "k")) /\
  fst (run Lab.rt (Lab.client (Lab.answering Scenes.brokenObject) "") Background
           (OpGetObject "b" "k") Lab.start)
  = Ok (Stream (mkReader "Hello" (Some (errorString "unexpected EOF")))).
Proof.
  assert (Hin : In (Response.StatusCode Scenes.brokenObject) (accepted (OpGetObject "b" "k")))
    by (left; reflexivity).
  split; [exact Hin|].
  exact (stream_is_the_response_body Lab.rt
           (Lab.client (Lab.answering Scenes.brokenObject) "") Background
           (OpGetObject "b" "k") Lab.start Scenes.brokenObject 1%nat
           eq_refl eq_refl eq_refl Hin).
Defined.

(** X11 at work: a payload that cannot be read, and a context that would
    stop the request as well. *)
Lemma upload_stops_at_unreadable_payload_witness :
  failure Scenes.brokenPayload = Some (errorString "read: input/output error") /\
  PutObject Lab.rt (Lab.client (Lab.answering Lab.uploaded) "sssss") nilContext
            "b" "k" Scenes.brokenPayload "hello.txt" Lab.start
  = (Err (wrapError "failed to copy file data: " (errorString "read: input/output error")),
     Lab.start).
Proof.
  split; [reflexivity|].
  exact (upload_stops_at_unreadable_payload Lab.rt
           (Lab.client (Lab.answering Lab.uploaded) "sssss") nilContext
           "b" "k" Scenes.brokenPayload "hello.txt" Lab.start _ eq_refl).
Defined.

(** X12 at work: the upload went through, its answer did not. *)
Lemma upload_fails_on_unread_response_witness :
  log (snd (PutObject Lab.rt (Lab.client (Lab.answering Scenes.brokenAccepted) "sssss")
                      Background "b" "k" (mkReader "Hello" None) "hello.txt" Lab.start))
  = log Lab.start
    ++ [Exchange (httpClient (Lab.client (Lab.answering Scenes.brokenAccepted) "sssss"))
          (putRequest (Lab.client (Lab.answering Scenes.brokenAccepted) "sssss")
                      Background "b" "k" "Hello" "hello.txt" "5f1d0c9a7be24e6388a1")
          (Ok Scenes.brokenAccepted)] /\
  Response.StatusCode Scenes.brokenAccepted = StatusOK /\
  fst (PutObject Lab.rt (Lab.client (Lab.answering Scenes.brokenAccepted) "sssss")
                 Background "b" "k" (mkReader "Hello" None) "hello.txt" Lab.start)
  = Err (wrapError "failed to read response: " (errorString "unexpected EOF")).
Proof.
  assert (Hlog :
    log (snd (PutObject Lab.rt (Lab.client (Lab.answering Scenes.brokenAccepted) "sssss")
                        Background "b" "k" (mkReader "Hello" None) "hello.txt" Lab.start))
    = log Lab.start
      ++ [Exchange (httpClient (Lab.client (Lab.answering Scenes.brokenAccepted) "sssss"))
            (putRequest (Lab.client (Lab.answering Scenes.brokenAccepted) "sssss")
                        Background "b" "k" "Hello" "hello.txt" "5f1d0c9a7be24e6388a1")
            (Ok Scenes.brokenAccepted)]) by (vm_compute; reflexivity).
  split; [exact Hlog|]. split; [reflexivity|].
  exact (upload_fails_on_unread_response Lab.rt
           (Lab.client (Lab.answering Scenes.brokenAccepted) "sssss") Background "b" "k"
           (mkReader "Hello" None) "hello.txt" Lab.start _ _ _ _ _ _
           (surjective_pairing _) Hlog eq_refl eq_refl).
Defined.

(** X13 at work: the form of the example upload. *)
Lemma upload_request_is_one_file_form_witness :
  exists boundary,
    boundary = fst (randomBoundary Lab.rt (ext Lab.start)) /\
    Request.Body
      (putRequest (Lab.client (Lab.answering Lab.uploaded) "sssss")
                  Background "b" "k" "Hello" "hello.txt" "5f1d0c9a7be24e6388a1")
    = MultipartBuffer boundary [mkFormFile "file" "hello.txt" "Hello"] /\
    Header.lookup
      (Request.Header
         (putRequest (Lab.client (Lab.answering Lab.uploaded) "sssss")
                     Background "b" "k" "Hello" "hello.txt" "5f1d0c9a7be24e6388a1"))
      "Content-Type"
    = Some [FormDataContentType boundary] /\
    failure (mkReader "Hello" None) = None.
Proof.
  refine (upload_request_is_one_file_form Lab.rt
            (Lab.client (Lab.answering Lab.uploaded) "sssss") Background "b" "k"
            (mkReader "Hello" None) "hello.txt" Lab.start _ _
            (httpClient (Lab.client (Lab.answering Lab.uploaded) "sssss"))
            (putRequest (Lab.client (Lab.answering Lab.uploaded) "sssss")
                        Background "b" "k" "Hello" "hello.txt" "5f1d0c9a7be24e6388a1")
            (Ok Lab.uploaded) (surjective_pairing _) _).
  vm_compute. reflexivity.
Defined.

(** X14 at work: a thumbnail line in a body without the preview label. *)
Lemma no_preview_label_no_urls_witness :
  strings.Contains (content (Response.Body Lab.thumbnailOnly)) thumbnailLabel = true /\
  exists req resp,
    log (snd (PutObject Lab.rt (Lab.client (Lab.answering Lab.thumbnailOnly) "sssss")
                        Background "b" "k" (mkReader "Hello" None) "hello.txt" Lab.start))
    = log Lab.start
      ++ [Exchange (httpClient (Lab.client (Lab.answering Lab.thumbnailOnly) "sssss"))
            req (Ok resp)] /\
    (strings.Contains (content (Response.Body resp)) previewLabel = false ->
     "" = "" /\ "" = "").
Proof.
  split; [vm_compute; reflexivity|].
  refine (no_preview_label_no_urls Lab.rt
            (Lab.client (Lab.answering Lab.thumbnailOnly) "sssss") Background "b" "k"
            (mkReader "Hello" None) "hello.txt" Lab.start
            (UploadResult.mk "k" "5d41402abc4b2a76" "" "") _ _).
  vm_compute. reflexivity.
Defined.

(** X15 at work: an ETag sent in double quotes. *)
Lemma metadata_etag_has_no_outer_quotes_witness :
  Header.Get (Response.Header Scenes.quotedETag) "ETag"
  = quote +:+ "5d41402abc4b2a76" +:+ quote /\
  exists req resp,
    log (snd (HeadObject Lab.rt (Lab.client (Lab.answering Scenes.quotedETag) "") Background
                         "b" "k" Lab.start))
    = log Lab.start
      ++ [Exchange (httpClient (Lab.client (Lab.answering Scenes.quotedETag) "")) req (Ok resp)] /\
    "5d41402abc4b2a76" = strings.Trim (Header.Get (Response.Header resp) "ETag") quote /\
    firstByte "5d41402abc4b2a76" <> Some (ascii_of_nat 34) /\
    lastByte "5d41402abc4b2a76" <> Some (ascii_of_nat 34).
Proof.
  split; [vm_compute; reflexivity|].
  refine (metadata_etag_has_no_outer_quotes Lab.rt
            (Lab.client (Lab.answering Scenes.quotedETag) "") Background "b" "k" Lab.start
            (ObjectInfo.mk "k" "" "" zeroTime "5d41402abc4b2a76" 19) _ _).
  vm_compute. reflexivity.
Defined.

(** X16 at work: a gateway answers the listing with a page of its own. *)
Lemma listing_fails_on_undecodable_body_witness :
  xml_Decode Lab.rt (Response.Body Scenes.notXML) = Err Lab.syntaxError /\
  fst (ListObjects Lab.rt (Lab.client (Lab.answering Scenes.notXML) "") Background
                   "b" "" Lab.start)
  = Err (wrapError "failed to parse response: " Lab.syntaxError).
Proof.
  split; [vm_compute; reflexivity|].
  refine (proj1 (listing_fails_on_undecodable_body Lab.rt
                   (Lab.client (Lab.answering Scenes.notXML) "") Background "b" ""
                   Lab.start _ _
                   (httpClient (Lab.client (Lab.answering Scenes.notXML) ""))
                   (Request.mk MethodGet "http://127.0.0.1:3000/api/b" ∅ NoBody Background)
                   Scenes.notXML Lab.syntaxError (surjective_pairing _) _ eq_refl _)).
  - vm_compute. reflexivity.
  - vm_compute. reflexivity.
Defined.

(** X17 at work: a nil context, and still a HEAD on the wire. *)
Lemma head_ignores_the_callers_context_witness :
  PutObjectFromFile (Lab.runtime (Lab.answering Lab.created))
    (Lab.client (Lab.answering Lab.uploaded) "sssss") nilContext
    "b" "k" "http://files.example/dir/report.pdf" Lab.start
  = (Err (wrapError "failed to create request: " (errorString "net/http: nil Context")),
     mkWorld 1%nat
       [Exchange (DefaultClient (Lab.runtime (Lab.answering Lab.created)))
          (headRequest "http://files.example/dir/report.pdf") (Ok Lab.created)]).
Proof.
  exact (head_ignores_the_callers_context (Lab.runtime (Lab.answering Lab.created))
           (Lab.client (Lab.answering Lab.uploaded) "sssss")
           "b" "k" "http://files.example/dir/report.pdf" Lab.start Lab.created 1%nat
           eq_refl eq_refl eq_refl).
Defined.

(** X18 at work: a prefix that tries to add a parameter of its own. *)
Lemma listing_query_is_escaped_witness :
  "a&x=1 #" <> "" /\
  (exists out,
     log (snd (ListObjects Lab.rt (Lab.client (Lab.answering Lab.listing) "") Background
                           "b" "a&x=1 #" Lab.start))
     = log Lab.start
       ++ [Exchange (httpClient (Lab.client (Lab.answering Lab.listing) ""))
             (Request.mk MethodGet "http://127.0.0.1:3000/api/b?prefix=a%26x%3D1+%23"
                         ∅ NoBody Background)
             out]) /\
  allBytes queryByte (url.QueryEscape "a&x=1 #") = true.
Proof.
  assert (Hne : "a&x=1 #" <> "") by discriminate.
  split; [exact Hne|].
  exact (listing_query_is_escaped Lab.rt (Lab.client (Lab.answering Lab.listing) "")
           Background "b" "a&x=1 #" Lab.start Hne eq_refl).
Defined.

(** X24 at work: the lines of the example upload response. *)
Lemma split_then_join_is_the_text_witness :
  newline <> "" /\
  strings.Split (content (Response.Body Lab.uploaded)) newline
  = ["上传成功"; "预览地址: http://127.0.0.1:3000/preview/k";
     "缩略图地址: http://127.0.0.1:3000/thumb/k"; ""] /\
  Join (strings.Split (content (Response.Body Lab.uploaded)) newline) newline
  = content (Response.Body Lab.uploaded).
Proof.
  assert (Hne : newline <> "") by discriminate.
  split; [exact Hne|]. split; [vm_compute; reflexivity|].
  exact (proj1 (split_then_join_is_the_text (content (Response.Body Lab.uploaded))
                  newline Hne)).
Defined.

(** X25 at work: the message of the refusal used above. *)
Lemma status_error_determines_body_and_status_witness :
  statusError "failed to get object: " "NoSuchKey" 404
  = statusError "failed to get object: " "NoSuchKey" 404 /\
  "NoSuchKey" = "NoSuchKey" /\ 404 = 404.
Proof.
  split; [reflexivity|].
  exact (status_error_determines_body_and_status "failed to get object: "
           "NoSuchKey" "NoSuchKey" 404 404 eq_refl).
Defined.
